(** * db_utils: a ledger of transactions and its command parser

    A shallow embedding of [db_utils.py]: the sentence parser
    [tentar_extrair_comando] with its pattern [PADRAO], and the store
    operations [inserir], [deletar], [totais], [listar_transacoes] and
    [faturamento_por_descricao] over the table [transacoes].

    Conventions.
    - A Python [str] is a [string] whose characters are code points below
      256; on that range [\s], [\d], [str.isspace] and the case-insensitive
      matching of ASCII letters are as tabulated below. Text with other
      characters is outside the model: there [re.I] also matches U+017F
      for [s] and U+0130, U+0131 for [i], and [\d] and [\s] hold further
      characters. Where a statement speaks of a word of the pattern
      being found in a sentence, it is found as the pattern finds it
      ([literal_found]).
    - The order in which an aggregate query visits its rows, and with it
      the order of the additions of [SUM], belongs to the engine
      ([visita]); it is some order of the rows of the query.
    - A Python [float] and an SQL [REAL] are binary64 values, written as
      [spec_float] with precision 53 and maximal exponent 1024.
    - Exceptions are values of [exn]; a call returns [Return v] or
      [Raise e]. *)

From Stdlib Require Import ZArith Bool Ascii String List Lia.
From Stdlib Require Import Floats.SpecFloat.
From Stdlib Require Import Sorting.Sorted Sorting.Permutation.
From Stdlib Require Structures.OrderedTypeEx.
From stdpp Require Import base option list gmap strings sorting.

Local Open Scope string_scope.
Local Open Scope Z_scope.

(** ** Exceptions and results *)

Inductive exn : Type :=
| ValueError
| AttributeError
| IntegrityError
| OverflowError.

Inductive result (A : Type) : Type :=
| Return (a : A)
| Raise (e : exn).

Arguments Return {A} a.
Arguments Raise {A} e.

Definition bind {A B : Type} (x : result A) (f : A -> result B) : result B :=
  match x with
  | Return a => f a
  | Raise e => Raise e
  end.

Notation "'do' x <- c1 ; c2" := (bind c1 (fun x => c2))
  (at level 10, x name, c1 at level 100, c2 at level 200).

(** ** Python strings *)

Module Py.

(** [str.isspace] on one character, which is also the class [\s]. *)
Definition isspace (c : ascii) : bool :=
  let n := Z.of_nat (nat_of_ascii c) in
  ((9 <=? n) && (n <=? 13)) || ((28 <=? n) && (n <=? 32))
  || (n =? 133) || (n =? 160).

(** The class [\d]. *)
Definition isdigit (c : ascii) : bool :=
  let n := Z.of_nat (nat_of_ascii c) in
  (48 <=? n) && (n <=? 57).

(** [str.lower] on one character. *)
Definition lower_char (c : ascii) : ascii :=
  let n := Z.of_nat (nat_of_ascii c) in
  if ((65 <=? n) && (n <=? 90))
     || ((192 <=? n) && (n <=? 222) && negb (n =? 215))
  then ascii_of_nat (Z.to_nat (n + 32))
  else c.

Fixpoint lower (s : string) : string :=
  match s with
  | EmptyString => EmptyString
  | String c s' => String (lower_char c) (lower s')
  end.

Fixpoint lstrip (s : string) : string :=
  match s with
  | EmptyString => EmptyString
  | String c s' => if isspace c then lstrip s' else s
  end.

Fixpoint rstrip (s : string) : string :=
  match s with
  | EmptyString => EmptyString
  | String c s' =>
      match rstrip s' with
      | EmptyString => if isspace c then EmptyString else String c EmptyString
      | r => String c r
      end
  end.

(** [s.strip()] *)
Definition strip (s : string) : string := rstrip (lstrip s).

(** [s.replace(old, new)] for a one-character [old]. *)
Fixpoint replace (old : ascii) (new : string) (s : string) : string :=
  match s with
  | EmptyString => EmptyString
  | String c s' =>
      if Ascii.eqb c old then new ++ replace old new s'
      else String c (replace old new s')
  end.

(** Truth value of a string: the empty string is falsy. *)
Definition truthy (s : string) : bool :=
  match s with
  | EmptyString => false
  | String _ _ => true
  end.

(** *** [float(s)]

    [tentar_extrair_comando] calls [float] on a string made of decimal
    digits and ['.'] only (see [normalizado_alphabet] below). On such a
    string [float] accepts one optional point with at least one digit
    around it, and returns the binary64 value nearest to the decimal
    (ties to even, overflow to infinity); anything else is a
    [ValueError]. *)

Definition digit_val (c : ascii) : Z := Z.of_nat (nat_of_ascii c) - 48.

(** Reads a run of digits: the number read so far, how many digits were
    read, and the rest. *)
Fixpoint read_digits (acc : Z) (n : nat) (s : string) : Z * nat * string :=
  match s with
  | String c s' =>
      if isdigit c then read_digits (10 * acc + digit_val c) (S n) s'
      else (acc, n, s)
  | EmptyString => (acc, n, s)
  end.

Definition prec : Z := 53.
Definition emax : Z := 1024.

Definition pos_zero : spec_float := S754_zero false.

(** The binary64 nearest to [num / 10 ^ k], for [num >= 0]. *)
Definition float_of_decimal (num : Z) (k : nat) : spec_float :=
  match num with
  | Zpos p =>
      SFdiv prec emax (S754_finite false p 0)
            (S754_finite false (Pos.pow 10 (Pos.of_nat k)) 0)
  | _ => pos_zero
  end.

Definition float_of_int (num : Z) : spec_float :=
  match num with
  | Zpos p => binary_normalize prec emax num 0 false
  | _ => pos_zero
  end.

Definition float (s : string) : result spec_float :=
  let '(ip, ni, r) := read_digits 0 0 s in
  match r with
  | EmptyString =>
      if (0 <? ni)%nat then Return (float_of_int ip) else Raise ValueError
  | String c r' =>
      if Ascii.eqb c "." then
        let '(all, nf, r'') := read_digits ip 0 r' in
        match r'' with
        | EmptyString =>
            if (0 <? ni + nf)%nat then
              Return (if (0 <? nf)%nat then float_of_decimal all nf
                      else float_of_int all)
            else Raise ValueError
        | String _ _ => Raise ValueError
        end
      else Raise ValueError
  end.

(** *** [datetime.strptime(s, "%d/%m/%Y").date().isoformat()] *)

Definition in_range (lo hi : Z) (c : ascii) : bool :=
  let n := digit_val c in (lo <=? n) && (n <=? hi).

(** Directive [%d]: [3[0-1]|[1-2]\d|0[1-9]|[1-9]| [1-9]]. *)
Definition directive_d (s : string) : option Z :=
  match s with
  | String a EmptyString =>
      if in_range 1 9 a then Some (digit_val a) else None
  | String a (String b EmptyString) =>
      if Ascii.eqb a "3" && in_range 0 1 b then Some (30 + digit_val b)
      else if in_range 1 2 a && in_range 0 9 b
           then Some (10 * digit_val a + digit_val b)
      else if (Ascii.eqb a "0" || Ascii.eqb a " ") && in_range 1 9 b
           then Some (digit_val b)
      else None
  | _ => None
  end.

(** Directive [%m]: [1[0-2]|0[1-9]|[1-9]]. *)
Definition directive_m (s : string) : option Z :=
  match s with
  | String a EmptyString =>
      if in_range 1 9 a then Some (digit_val a) else None
  | String a (String b EmptyString) =>
      if Ascii.eqb a "1" && in_range 0 2 b then Some (10 + digit_val b)
      else if Ascii.eqb a "0" && in_range 1 9 b then Some (digit_val b)
      else None
  | _ => None
  end.

(** Directive [%Y]: [\d\d\d\d]. *)
Definition directive_Y (s : string) : option Z :=
  match s with
  | String a (String b (String c (String d EmptyString))) =>
      if isdigit a && isdigit b && isdigit c && isdigit d
      then Some (1000 * digit_val a + 100 * digit_val b
                 + 10 * digit_val c + digit_val d)
      else None
  | _ => None
  end.

(** Splits at the first occurrence of [sep]. *)
Fixpoint split_at (sep : ascii) (s : string) : option (string * string) :=
  match s with
  | EmptyString => None
  | String c s' =>
      if Ascii.eqb c sep then Some (EmptyString, s')
      else match split_at sep s' with
           | Some (a, b) => Some (String c a, b)
           | None => None
           end
  end.

Definition is_leap (y : Z) : bool :=
  (y mod 4 =? 0) && (negb (y mod 100 =? 0) || (y mod 400 =? 0)).

Definition days_in_month (y m : Z) : Z :=
  if m =? 2 then (if is_leap y then 29 else 28)
  else if (m =? 4) || (m =? 6) || (m =? 9) || (m =? 11) then 30
  else 31.

(** The check made by the [date] constructor. *)
Definition valid_date (y m d : Z) : bool :=
  (1 <=? y) && (y <=? 9999) && (1 <=? m) && (m <=? 12)
  && (1 <=? d) && (d <=? days_in_month y m).

Record date : Type := Date { year : Z; month : Z; day : Z }.

(** [datetime.strptime(s, "%d/%m/%Y").date()] *)
Definition strptime_dmY (s : string) : result date :=
  match split_at "/" s with
  | None => Raise ValueError
  | Some (ds, r) =>
      match split_at "/" r with
      | None => Raise ValueError
      | Some (ms, ys) =>
          match directive_d ds, directive_m ms, directive_Y ys with
          | Some d, Some m, Some y =>
              if valid_date y m d then Return (Date y m d)
              else Raise ValueError
          | _, _, _ => Raise ValueError
          end
      end
  end.

Definition digit_char (n : Z) : ascii := ascii_of_nat (Z.to_nat (48 + n mod 10)).

Definition two_digits (n : Z) : string :=
  String (digit_char (n / 10)) (String (digit_char n) EmptyString).

Definition four_digits (n : Z) : string :=
  String (digit_char (n / 1000)) (String (digit_char (n / 100))
    (two_digits n)).

(** [d.isoformat()], that is ["%04d-%02d-%02d"]. *)
Definition isoformat (d : date) : string :=
  four_digits (year d) ++ "-" ++ two_digits (month d) ++ "-"
  ++ two_digits (day d).

End Py.

(** ** Regular expressions

    The fragment of Python's [re] that [PADRAO] is written in, compiled
    with [re.I]: literals, character classes, bounded and unbounded
    repetition of one class (greedy or lazy), sequence, ordered
    alternation, the greedy optional group [(?:r)?], capturing groups and
    [$]. Matching is by backtracking in Python's order of preference. *)

Module Re.

Inductive cclass : Type :=
| Chr (c : ascii)           (* a literal character, case-insensitive *)
| Digit                     (* \d *)
| Space                     (* \s *)
| Dot                       (* .  : anything but a newline *)
| Union (a b : cclass).     (* [ab] *)

Fixpoint accepts (k : cclass) (c : ascii) : bool :=
  match k with
  | Chr x => Ascii.eqb (Py.lower_char c) (Py.lower_char x)
  | Digit => Py.isdigit c
  | Space => Py.isspace c
  | Dot => negb (Ascii.eqb c "010")
  | Union a b => accepts a c || accepts b c
  end.

Inductive re : Type :=
| Str (s : string)                                   (* literal text *)
| Rep (k : cclass) (lo : nat) (hi : option nat) (greedy : bool)
| Seq (a b : re)
| Alt (a b : re)
| Opt (a : re)                                       (* (?:a)? *)
| Group (i : nat) (a : re)                           (* i-th ( ) *)
| Eos.                                               (* $ *)

(** The groups that took part in a match, by number. *)
Abbreviation groups := (gmap nat string).

Section Match.
Context {A : Type}.

(** Literal text at the head of the subject. *)
Fixpoint lit (p s : string) (k : string -> option A) : option A :=
  match p with
  | EmptyString => k s
  | String x p' =>
      match s with
      | String c s' => if accepts (Chr x) c then lit p' s' k else None
      | EmptyString => None
      end
  end.

Definition below (hi : option nat) (n : nat) : bool :=
  match hi with
  | Some h => (n <? h)%nat
  | None => true
  end.

(** [n] characters of the class are taken already; greedy repetition
    takes as many more as it can and gives them back one at a time. *)
Fixpoint rep_greedy (c : cclass) (lo : nat) (hi : option nat) (n : nat)
    (s : string) (k : string -> option A) : option A :=
  match s with
  | String a s' =>
      if below hi n && accepts c a then
        match rep_greedy c lo hi (S n) s' k with
        | Some x => Some x
        | None => if (lo <=? n)%nat then k s else None
        end
      else if (lo <=? n)%nat then k s else None
  | EmptyString => if (lo <=? n)%nat then k s else None
  end.

(** Lazy repetition stops as early as it may and takes one more
    character each time the rest fails. *)
Fixpoint rep_lazy (c : cclass) (lo : nat) (hi : option nat) (n : nat)
    (s : string) (k : string -> option A) : option A :=
  match (if (lo <=? n)%nat then k s else None) with
  | Some x => Some x
  | None =>
      match s with
      | String a s' =>
          if below hi n && accepts c a then rep_lazy c lo hi (S n) s' k
          else None
      | EmptyString => None
      end
  end.

(** The text between the subject [s] and its suffix [s']. *)
Definition consumed (s s' : string) : string :=
  String.substring 0 (String.length s - String.length s') s.

(** [$] matches at the end and before a final newline. *)
Definition at_end (s : string) : bool :=
  match s with
  | EmptyString => true
  | String c EmptyString => Ascii.eqb c "010"
  | _ => false
  end.

Fixpoint run (r : re) (s : string) (g : groups)
    (k : string -> groups -> option A) : option A :=
  match r with
  | Str p => lit p s (fun s' => k s' g)
  | Rep c lo hi true => rep_greedy c lo hi 0 s (fun s' => k s' g)
  | Rep c lo hi false => rep_lazy c lo hi 0 s (fun s' => k s' g)
  | Seq a b => run a s g (fun s' g' => run b s' g' k)
  | Alt a b =>
      match run a s g k with
      | Some x => Some x
      | None => run b s g k
      end
  | Opt a =>
      match run a s g k with
      | Some x => Some x
      | None => k s g
      end
  | Group i a => run a s g (fun s' g' => k s' (<[i := consumed s s']> g'))
  | Eos => if at_end s then k s g else None
  end.

End Match.

(** [r.match(s)]: the groups of the preferred match at the head of [s]. *)
Definition match_ (r : re) (s : string) : option groups :=
  run r s ∅ (fun _ g => Some g).

(** [r.search(s)]: the first position with a match wins. *)
Fixpoint search (r : re) (s : string) : option groups :=
  match match_ r s with
  | Some g => Some g
  | None =>
      match s with
      | String _ s' => search r s'
      | EmptyString => None
      end
  end.

(** Every character of [w] is in the class. *)
Fixpoint all_accepted (k : cclass) (w : string) : bool :=
  match w with
  | EmptyString => true
  | String c w' => accepts k c && all_accepted k w'
  end.

Definition within (hi : option nat) (n : nat) : Prop :=
  match hi with
  | Some h => (n <= h)%nat
  | None => True
  end.

(** What a successful run establishes: [derives r w rest g g'] says that
    [r] matches the text [w] when [rest] follows it, taking the groups
    from [g] to [g']. *)
Fixpoint derives (r : re) (w rest : string) (g g' : groups) : Prop :=
  match r with
  | Str p => Py.lower w = Py.lower p /\ g' = g
  | Rep k lo hi _ =>
      all_accepted k w = true /\ (lo <= String.length w)%nat
      /\ within hi (String.length w) /\ g' = g
  | Seq a b =>
      exists w1 w2 g1,
        w = w1 ++ w2 /\ derives a w1 (w2 ++ rest) g g1
        /\ derives b w2 rest g1 g'
  | Alt a b => derives a w rest g g' \/ derives b w rest g g'
  | Opt a => derives a w rest g g' \/ (w = "" /\ g' = g)
  | Group i a => exists g1, derives a w rest g g1 /\ g' = <[i := w]> g1
  | Eos => w = "" /\ at_end rest = true /\ g' = g
  end.

End Re.

(** ** The parser *)

Record Registro : Type := {
  data : string;
  tipo : string;
  valor : spec_float;
  descricao : option string
}.

Import Re.

(** A sequence of patterns, [k+] and [k*]. *)
Fixpoint seq (l : list re) : re :=
  match l with
  | [] => Str ""
  | [a] => a
  | a :: l' => Seq a (seq l')
  end.

Definition plus (k : cclass) : re := Rep k 1 None true.
Definition star (k : cclass) : re := Rep k 0 None true.
Definition one (k : cclass) : re := Rep k 1 (Some 1%nat) true.

(** The pattern, compiled with [re.I]:
    "registre(?:\s+no\s+banco\s+de\s+dados)?\s+(?:r\$\s*" ")?([\d\.,]+)\s+de\s+"
    "(faturamento|despesa)s?\s+em\s+(\d{1,2}[\/-]\d{1,2}[\/-]\d{4})"
    "(?:\s+com\s+descricao\s+(.+?))?[\s\.]*$" *)
Definition PADRAO : re :=
  seq [ Str "registre";
        Opt (seq [plus Space; Str "no"; plus Space; Str "banco"; plus Space;
                  Str "de"; plus Space; Str "dados"]);
        plus Space;
        Opt (seq [Str "r$"; star Space]);
        Group 1 (plus (Union Digit (Union (Chr ".") (Chr ","))));
        plus Space; Str "de"; plus Space;
        Group 2 (Alt (Str "faturamento") (Str "despesa"));
        Opt (Str "s");
        plus Space; Str "em"; plus Space;
        Group 3 (seq [Rep Digit 1 (Some 2%nat) true;
                      one (Union (Chr "/") (Chr "-"));
                      Rep Digit 1 (Some 2%nat) true;
                      one (Union (Chr "/") (Chr "-"));
                      Rep Digit 4 (Some 4%nat) true]);
        Opt (seq [plus Space; Str "com"; plus Space; Str "descricao";
                  plus Space; Group 4 (Rep Dot 1 None false)]);
        star (Union Space (Chr "."));
        Eos ].

(** [m.group(i)] of a group that must have taken part; on [None] the
    method call that follows raises. *)
Definition group (m : groups) (i : nat) : result string :=
  match m !! i with
  | Some s => Return s
  | None => Raise AttributeError
  end.

Definition tentar_extrair_comando (txt : string) : result (option Registro) :=
  match search PADRAO (Py.strip txt) with
  | None => Return None
  | Some m =>
      do g1 <- group m 1;
      do valor <- Py.float (Py.replace "," "." (Py.replace "." "" g1));
      do g3 <- group m 3;
      do d <- Py.strptime_dmY (Py.replace "-" "/" g3);
      let data_iso := Py.isoformat d in
      do g2 <- group m 2;
      Return (Some {| valor := valor;
                      tipo := Py.lower g2;
                      data := data_iso;
                      descricao :=
                        match m !! 4%nat with
                        | Some g4 =>
                            if Py.truthy g4 then Some (Py.strip g4) else None
                        | None => None
                        end |})
  end.

(** ** The store

    The table [transacoes] is the list of its rows in rowid order, with
    the counter that [AUTOINCREMENT] keeps in [sqlite_sequence]. Rowids are
    unbounded integers here; an integer that Python binds as a parameter
    must fit 64 bits. *)

Record Linha : Type := { id : Z; campos : Registro }.

Record Db : Type := { transacoes : list Linha; sqlite_sequence : Z }.

Definition db_vazio : Db := {| transacoes := []; sqlite_sequence := 0 |}.

(** The two aggregate queries, which the engine is free to plan. *)
Inductive consulta : Type :=
| ConsultaTotais
| ConsultaFaturamento.

(** What the store takes from outside the module: SQLite's scalar function
    [date(X)], which is [NULL] when [X] is not a time value; pandas'
    conversion of a column of text to timestamps
    ([to_datetime(col, errors="coerce")]), which keeps the number of
    cells; and the order in which the plan of an aggregate query visits
    the rows it keeps (with the index [idx_tipo_data] that is not the
    order of the rowids), which is some order of those rows. *)
Class Engine : Type := {
  sql_date : string -> option string;
  Timestamp : Type;
  to_datetime : list string -> list Timestamp;
  to_datetime_length : forall col, length (to_datetime col) = length col;
  visita : consulta -> list Linha -> list Linha;
  visita_perm : forall q rows, Permutation (visita q rows) rows
}.

(** *** SQL values *)

Definition is_nan (f : spec_float) : bool :=
  match f with
  | S754_nan => true
  | _ => false
  end.

(** Three-valued [AND]. *)
Definition sql_and (a b : option bool) : option bool :=
  match a, b with
  | Some false, _ | _, Some false => Some false
  | Some true, Some true => Some true
  | _, _ => None
  end.

(** [a >= b] and [a <= b] on text, [NULL] when an operand is. *)
Definition sql_ge (a b : option string) : option bool :=
  match a, b with
  | Some x, Some y => Some (String.leb y x)
  | _, _ => None
  end.

Definition sql_le (a b : option string) : option bool :=
  match a, b with
  | Some x, Some y => Some (String.leb x y)
  | _, _ => None
  end.

(** The order of [ORDER BY]: [NULL] is below every value. *)
Definition sql_cmp_text (a b : option string) : comparison :=
  match a, b with
  | None, None => Eq
  | None, Some _ => Lt
  | Some _, None => Gt
  | Some x, Some y => String.compare x y
  end.

Definition sql_cmp_real (a b : option spec_float) : comparison :=
  match a, b with
  | None, None => Eq
  | None, Some _ => Lt
  | Some _, None => Gt
  | Some x, Some y => default Eq (SFcompare x y)
  end.

(** [SUM(X)] over the rows of a group: binary64 additions from [0.0], one
    row after the other as the query visits them; no rows, or a sum that
    is not a number, give [NULL]. *)
Definition soma (vs : list spec_float) : spec_float :=
  foldl (SFadd Py.prec Py.emax) Py.pos_zero vs.

Definition sql_sum (vs : list spec_float) : option spec_float :=
  match vs with
  | [] => None
  | _ => if is_nan (soma vs) then None else Some (soma vs)
  end.

(** [GROUP BY key]: one group per distinct key, each with its rows. *)
Definition group_by {K A : Type} `{EqDecision K} (key : A -> K)
    (rows : list A) : list (K * list A) :=
  map (fun k => (k, filter (fun r => key r = k) rows))
      (remove_dups (map key rows)).

(** *** Writes *)

Definition max_id (l : list Linha) : Z :=
  foldr (fun x m => Z.max (id x) m) 0 l.

(** The rowid [AUTOINCREMENT] gives to the next row. *)
Definition next_id (d : Db) : Z :=
  Z.max (sqlite_sequence d) (max_id (transacoes d)) + 1.

(** [CHECK (tipo IN ('faturamento','despesa'))] *)
Definition check_tipo (t : string) : bool :=
  String.eqb t "faturamento" || String.eqb t "despesa".

(** What a [REAL] column gives back for the float it was given: the same
    float, but [0.0] for the negative zero. *)
Definition armazena (v : spec_float) : spec_float :=
  match v with
  | S754_zero _ => S754_zero false
  | _ => v
  end.

(** The row that a record becomes. *)
Definition linha_de (n : Z) (r : Registro) : Linha :=
  {| id := n;
     campos := {| data := data r; tipo := tipo r;
                  valor := armazena (valor r);
                  descricao := descricao r |} |}.

(** A float that is not a number is bound as [NULL], which [valor REAL NOT
    NULL] refuses. A refused statement leaves the table as it was. *)
Definition inserir (r : Registro) (d : Db) : result unit * Db :=
  if is_nan (valor r) then (Raise IntegrityError, d)
  else if negb (check_tipo (tipo r)) then (Raise IntegrityError, d)
  else
    let n := next_id d in
    (Return tt,
     {| transacoes := transacoes d ++ [linha_de n r];
        sqlite_sequence := n |}).

(** The integers that bind as an SQLite [INTEGER]. *)
Definition int64 (n : Z) : bool :=
  (- 2 ^ 63 <=? n) && (n <=? 2 ^ 63 - 1).

(** Binding an integer outside 64 bits raises before the statement
    runs. *)
Definition deletar (reg_id : Z) (d : Db) : result bool * Db :=
  if int64 reg_id then
    let rowcount := length (filter (fun l => id l = reg_id) (transacoes d)) in
    (Return (bool_decide (0 < rowcount)%nat),
     {| transacoes := filter (fun l => id l <> reg_id) (transacoes d);
        sqlite_sequence := sqlite_sequence d |})
  else (Raise OverflowError, d).

(** *** Reads *)

(** A condition of the [WHERE] clause with its parameter. *)
Inductive condicao : Type :=
| DataGe (p : string)       (* date(data) >= ? *)
| DataLe (p : string).      (* date(data) <= ? *)

(** [if data_inicio: ...  if data_fim: ...] *)
Definition condicoes (data_inicio data_fim : option string) : list condicao :=
  match data_inicio with
  | Some p => if Py.truthy p then [DataGe p] else []
  | None => []
  end ++
  match data_fim with
  | Some p => if Py.truthy p then [DataLe p] else []
  | None => []
  end.

(** A row of the query [SELECT id, data, tipo, valor,
    COALESCE(descricao,'') AS descricao]. *)
Record Selecao : Type := {
  s_id : Z;
  s_data : string;
  s_tipo : string;
  s_valor : spec_float;
  s_descricao : string
}.

Section Reads.
Context `{Engine}.

Definition avalia (c : condicao) (l : Linha) : option bool :=
  match c with
  | DataGe p => sql_ge (sql_date (data (campos l))) (Some p)
  | DataLe p => sql_le (sql_date (data (campos l))) (Some p)
  end.

(** [" AND ".join(conditions)] *)
Definition conj (cs : list condicao) (l : Linha) : option bool :=
  foldr (fun c acc => sql_and (avalia c l) acc) (Some true) cs.

(** The rows a query keeps: all of them without a [WHERE] clause, else
    those on which the clause is true. *)
Definition onde (cs : list condicao) (l : Linha) : bool :=
  match cs with
  | [] => true
  | _ => bool_decide (conj cs l = Some true)
  end.

Definition totais_consulta (data_inicio data_fim : option string) (d : Db)
    : list (string * option spec_float) :=
  let rows :=
    visita ConsultaTotais
      (filter (fun l => onde (condicoes data_inicio data_fim) l = true)
              (transacoes d)) in
  map (fun '(t, g) => (t, sql_sum (map (fun l => valor (campos l)) g)))
      (group_by (fun l => tipo (campos l)) rows).

(** [v or 0.0] *)
Definition ou_zero (v : option spec_float) : spec_float :=
  match v with
  | None | Some (S754_zero _) => Py.pos_zero
  | Some x => x
  end.

(** One entry of the comprehension [{t: v or 0.0 for t, v in ...}]. *)
Definition registra (m : gmap string spec_float)
    (tv : string * option spec_float) : gmap string spec_float :=
  let '(t, v) := tv in <[t := ou_zero v]> m.

Definition totais (data_inicio data_fim : option string) (d : Db)
    : gmap string spec_float :=
  foldl registra ∅ (totais_consulta data_inicio data_fim d).

(** [ORDER BY date(data) DESC, id DESC]: [a] may come before [b]. *)
Definition antes_listar (a b : Linha) : bool :=
  match sql_cmp_text (sql_date (data (campos a))) (sql_date (data (campos b))) with
  | Gt => true
  | Eq => id b <=? id a
  | Lt => false
  end.

Definition ordem_listar : relation Linha :=
  fun a b => antes_listar a b = true.

#[global] Instance ordem_listar_dec : RelDecision ordem_listar :=
  fun a b => decide (antes_listar a b = true).

Definition selecao (l : Linha) : Selecao :=
  {| s_id := id l;
     s_data := data (campos l);
     s_tipo := tipo (campos l);
     s_valor := valor (campos l);
     s_descricao := default "" (descricao (campos l)) |}.

Definition listar_ordenadas (data_inicio data_fim : option string) (d : Db)
    : list Linha :=
  merge_sort ordem_listar
    (filter (fun l => onde (condicoes data_inicio data_fim) l = true)
            (transacoes d)).

Definition listar_consulta (data_inicio data_fim : option string) (d : Db)
    : list Selecao :=
  map selecao (listar_ordenadas data_inicio data_fim d).

(** A row of the frame that [read_sql_query] builds with
    [parse_dates=["data"]]. *)
Record Quadro : Type := {
  q_id : Z;
  q_data : Timestamp;
  q_tipo : string;
  q_valor : spec_float;
  q_descricao : string
}.

Definition quadro_de (r : Selecao) (t : Timestamp) : Quadro :=
  {| q_id := s_id r; q_data := t; q_tipo := s_tipo r; q_valor := s_valor r;
     q_descricao := s_descricao r |}.

Definition read_sql_query_parse_dates (rows : list Selecao) : list Quadro :=
  zip_with quadro_de rows (to_datetime (map s_data rows)).

Definition listar_transacoes (data_inicio data_fim : option string) (d : Db)
    : list Quadro :=
  read_sql_query_parse_dates (listar_consulta data_inicio data_fim d).

(** [ORDER BY total DESC] *)
Definition antes_total (a b : option string * option spec_float) : bool :=
  match sql_cmp_real (snd a) (snd b) with
  | Lt => false
  | _ => true
  end.

Definition ordem_total : relation (option string * option spec_float) :=
  fun a b => antes_total a b = true.

#[global] Instance ordem_total_dec : RelDecision ordem_total :=
  fun a b => decide (antes_total a b = true).

(** [WHERE tipo='faturamento' AND ...] *)
Definition onde_faturamento (cs : list condicao) (l : Linha) : bool :=
  bool_decide
    (sql_and (Some (String.eqb (tipo (campos l)) "faturamento")) (conj cs l)
     = Some true).

(** One row per description with its [SUM], by total descending; rows of
    equal total stand as the query reached their descriptions, which is
    the engine's order as well. *)
Definition faturamento_por_descricao (data_inicio data_fim : option string)
    (d : Db) : list (option string * option spec_float) :=
  let rows :=
    visita ConsultaFaturamento
      (filter (fun l => onde_faturamento (condicoes data_inicio data_fim) l
                        = true)
              (transacoes d)) in
  merge_sort ordem_total
    (map (fun '(k, g) => (k, sql_sum (map (fun l => valor (campos l)) g)))
         (group_by (fun l => descricao (campos l)) rows)).

End Reads.

(** An engine for examples: [date] on calendar dates written
    [YYYY-MM-DD], where it is the identity, and [NULL] elsewhere; a
    timestamp is the date it stands for; the aggregate queries visit
    the rows by date text and then by rowid, as [idx_tipo_data] lists the
    rows of a kind. *)
Definition date_iso (s : string) : option string :=
  match Py.split_at "-" s with
  | Some (y, r) =>
      match Py.split_at "-" r with
      | Some (m, d) =>
          match Py.directive_Y y, Py.directive_m m, Py.directive_d d with
          | Some yy, Some mm, Some dd =>
              if Py.valid_date yy mm dd
                 && String.eqb s (Py.isoformat (Py.Date yy mm dd))
              then Some s else None
          | _, _, _ => None
          end
      | None => None
      end
  | None => None
  end.

Definition antes_indice (a b : Linha) : bool :=
  match String.compare (data (campos a)) (data (campos b)) with
  | Lt => true
  | Eq => id a <=? id b
  | Gt => false
  end.

Definition ordem_indice : relation Linha :=
  fun a b => antes_indice a b = true.

#[global] Instance ordem_indice_dec : RelDecision ordem_indice :=
  fun a b => decide (antes_indice a b = true).

#[local] Instance exemplo_engine : Engine := {|
  sql_date := date_iso;
  Timestamp := option string;
  to_datetime := map date_iso;
  to_datetime_length := fun col => length_map date_iso col;
  visita := fun _ rows => merge_sort ordem_indice rows;
  visita_perm := fun _ rows => merge_sort_Permutation ordem_indice rows
|}.


(** ** Vocabulary of the statements *)

Definition tail (s : string) : string :=
  match s with
  | String _ s' => s'
  | EmptyString => EmptyString
  end.

(** Day, month and year as written in a date slot, whatever the two
    separators are. *)
Definition slot_dmy (g3 : string) : Z * Z * Z :=
  let '(d, _, r1) := Py.read_digits 0 0 g3 in
  let '(m, _, r2) := Py.read_digits 0 0 (tail r1) in
  let '(y, _, _) := Py.read_digits 0 0 (tail r2) in
  (d, m, y).

(** The date slot names a day of the calendar. *)
Definition calendar_date (g3 : string) : bool :=
  let '(d, m, y) := slot_dmy g3 in Py.valid_date y m d.

(** The literal [p], as a pattern compiled with [re.I] matches it, is
    found at the head of [s], and somewhere in [s]: character by
    character, the text is one that the literal accepts. *)
Fixpoint literal_here (p s : string) : bool :=
  match p, s with
  | EmptyString, _ => true
  | String x p', String c s' => accepts (Chr x) c && literal_here p' s'
  | String _ _, EmptyString => false
  end.

Fixpoint literal_found (p s : string) : bool :=
  literal_here p s ||
  match s with
  | String _ s' => literal_found p s'
  | EmptyString => false
  end.

(** The optional phrase of the pattern, and the pattern behind it: [PADRAO]
    is "registre", then the phrase or nothing, then the rest. *)
Definition frase_opcional : re :=
  seq [plus Space; Str "no"; plus Space; Str "banco"; plus Space;
       Str "de"; plus Space; Str "dados"].

Definition PADRAO_resto : re :=
  seq [ plus Space;
        Opt (seq [Str "r$"; star Space]);
        Group 1 (plus (Union Digit (Union (Chr ".") (Chr ","))));
        plus Space; Str "de"; plus Space;
        Group 2 (Alt (Str "faturamento") (Str "despesa"));
        Opt (Str "s");
        plus Space; Str "em"; plus Space;
        Group 3 (seq [Rep Digit 1 (Some 2%nat) true;
                      one (Union (Chr "/") (Chr "-"));
                      Rep Digit 1 (Some 2%nat) true;
                      one (Union (Chr "/") (Chr "-"));
                      Rep Digit 4 (Some 4%nat) true]);
        Opt (seq [plus Space; Str "com"; plus Space; Str "descricao";
                  plus Space; Group 4 (Rep Dot 1 None false)]);
        star (Union Space (Chr "."));
        Eos ].

(** The amount slot as [float] receives it. *)
Definition normalizado (g1 : string) : string :=
  Py.replace "," "." (Py.replace "." "" g1).

(** [f] is the finite binary64 [m * 2 ^ e], with [e < 0], nearest to the
    fraction [n / d]. *)
Definition nearest_binary64 (n d : Z) (f : spec_float) : Prop :=
  match f with
  | S754_finite false m e =>
      e < 0 /\ valid_binary Py.prec Py.emax f = true
      /\ 2 * Z.abs (Z.pos m * d - n * 2 ^ (- e)) <= d
  | _ => False
  end.

(** The classes of the amount slot and of a date separator. *)
Definition amount_class : cclass := Union Digit (Union (Chr ".") (Chr ",")).
Definition sep_class : cclass := Union (Chr "/") (Chr "-").

(** The shape of the date slot: [\d{1,2}[\/-]\d{1,2}[\/-]\d{4}]. *)
Definition date_slot (g3 : string) : Prop :=
  exists d s1 mo s2 y,
    g3 = d ++ s1 ++ mo ++ s2 ++ y
    /\ all_accepted Digit d = true /\ (1 <= String.length d <= 2)%nat
    /\ all_accepted sep_class s1 = true /\ String.length s1 = 1%nat
    /\ all_accepted Digit mo = true /\ (1 <= String.length mo <= 2)%nat
    /\ all_accepted sep_class s2 = true /\ String.length s2 = 1%nat
    /\ all_accepted Digit y = true /\ String.length y = 4%nat.

(** The floats that Python writes [1234.56], [150.0] and [10.5]. *)
Definition f_1234_56 : spec_float := S754_finite false 5429652300748554 (-42).
Definition f_150 : spec_float := S754_finite false 5277655813324800 (-45).
Definition f_10_5 : spec_float := S754_finite false 5910974510923776 (-49).

(** *** The store *)

(** A bound that constrains: an absent or empty bound does not. *)
Definition limite (b : option string) : option string :=
  match b with
  | Some p => if Py.truthy p then Some p else None
  | None => None
  end.

(** What [inserir] needs of a record: a kind of the table and an amount
    that is a number. *)
Definition registro_valido (r : Registro) : Prop :=
  (tipo r = "faturamento" \/ tipo r = "despesa") /\ valor r <> S754_nan.

Section Vocabulary.
Context `{Engine}.

(** The calendar date of a row, [date(data)]. *)
Definition dia (l : Linha) : option string := sql_date (data (campos l)).

(** The row's date lies within the inclusive range. *)
Definition no_intervalo (data_inicio data_fim : option string) (l : Linha)
    : bool :=
  match limite data_inicio with
  | Some p =>
      match dia l with
      | Some x => String.leb p x
      | None => false
      end
  | None => true
  end
  &&
  match limite data_fim with
  | Some q =>
      match dia l with
      | Some x => String.leb x q
      | None => false
      end
  | None => true
  end.

(** [a] is listed before [b]: a later date, or the same date and an id
    that is not smaller. *)
Definition desc_data_id (a b : Linha) : Prop :=
  sql_cmp_text (dia a) (dia b) = Gt \/ (dia a = dia b /\ id b <= id a).

(** [a] is listed before [b]: a total that is not smaller. *)
Definition desc_total (a b : option string * option spec_float) : Prop :=
  sql_cmp_real (snd a) (snd b) <> Lt.

End Vocabulary.

(** The scenario: revenue 100.0 on 2024-01-01 with description "A", revenue
    50.0 on 2024-01-02 with description "A", expense 30.0 on 2024-01-01,
    inserted in that order into an empty store. *)
Definition db_cenario : Db :=
  snd (inserir {| data := "2024-01-01"; tipo := "despesa";
                  valor := Py.float_of_int 30; descricao := None |}
  (snd (inserir {| data := "2024-01-02"; tipo := "faturamento";
                   valor := Py.float_of_int 50; descricao := Some "A" |}
  (snd (inserir {| data := "2024-01-01"; tipo := "faturamento";
                   valor := Py.float_of_int 100; descricao := Some "A" |}
                db_vazio))))).

Definition registro_exemplo : Registro :=
  {| data := "2024-02-29"; tipo := "despesa";
     valor := f_10_5; descricao := None |}.

(** A record whose amount is the negative zero. *)
Definition registro_zero_negativo : Registro :=
  {| data := "2024-02-29"; tipo := "despesa";
     valor := S754_zero true; descricao := None |}.

(** Two expenses of the same day, of [+inf] and of [-inf], inserted in
    that order into an empty store. *)
Definition registro_infinito (negativo : bool) : Registro :=
  {| data := "2024-01-01"; tipo := "despesa";
     valor := S754_infinity negativo; descricao := None |}.

Definition db_infinitos : Db :=
  snd (inserir (registro_infinito true)
         (snd (inserir (registro_infinito false) db_vazio))).

(** *** Further vocabulary *)

(** A float that is a number and is not negative: [+0.0], a positive
    finite value or [+inf]. *)
Definition nao_negativo (f : spec_float) : bool :=
  match f with
  | S754_zero false | S754_infinity false | S754_finite false _ _ => true
  | _ => false
  end.

(** How many times a character occurs, and whether there is a digit. *)
Fixpoint count_char (c : ascii) (s : string) : nat :=
  match s with
  | EmptyString => 0
  | String x s' => (if Ascii.eqb x c then 1 else 0) + count_char c s'
  end.

Fixpoint has_digit (s : string) : bool :=
  match s with
  | EmptyString => false
  | String x s' => Py.isdigit x || has_digit s'
  end.

(** The stores that the module builds: the empty table, then any
    sequence of calls of [inserir] and [deletar]. *)
Inductive alcancavel : Db -> Prop :=
| alc_vazio : alcancavel db_vazio
| alc_inserir (r : Registro) (d : Db) :
    alcancavel d -> alcancavel (snd (inserir r d))
| alc_deletar (reg_id : Z) (d : Db) :
    alcancavel d -> alcancavel (snd (deletar reg_id d)).

(** What the schema promises of a table: identifiers in increasing order,
    positive and not above the counter of [sqlite_sequence], and rows
    that pass [CHECK] and [NOT NULL]. *)
Definition bem_formado (d : Db) : Prop :=
  StronglySorted (fun a b => id a < id b) (transacoes d)
  /\ Forall (fun l => 1 <= id l <= sqlite_sequence d
                      /\ registro_valido (campos l))
            (transacoes d).

(** The scenario with one more row, whose date text is no date. *)
Definition db_sem_data : Db :=
  snd (inserir {| data := "ontem"; tipo := "despesa";
                  valor := Py.float_of_int 30; descricao := Some "B" |}
               db_cenario).

(** * Properties *)

(** ** Strings *)

Lemma append_nil_l (s : string) : "" ++ s = s.
Proof. reflexivity. Qed.

Lemma append_cons (c : ascii) (s t : string) :
  String c s ++ t = String c (s ++ t).
Proof. reflexivity. Qed.

Lemma append_nil_r (s : string) : s ++ "" = s.
Proof.
  induction s as [|c s IH]; [reflexivity|].
  now rewrite append_cons, IH.
Qed.

Lemma append_assoc (a b c : string) : (a ++ b) ++ c = a ++ (b ++ c).
Proof.
  induction a as [|x a IH]; [reflexivity|].
  now rewrite !append_cons, IH.
Qed.

Lemma length_append (a b : string) :
  String.length (a ++ b) = (String.length a + String.length b)%nat.
Proof.
  induction a as [|x a IH]; [reflexivity|].
  rewrite append_cons. simpl. now rewrite IH.
Qed.

Lemma substring_prefix (a b : string) :
  String.substring 0 (String.length a) (a ++ b) = a.
Proof.
  induction a as [|x a IH].
  - now destruct b.
  - rewrite append_cons. simpl. now rewrite IH.
Qed.

Lemma lower_append (a b : string) :
  Py.lower (a ++ b) = Py.lower a ++ Py.lower b.
Proof.
  induction a as [|x a IH]; [reflexivity|].
  rewrite append_cons. simpl. now rewrite IH.
Qed.

Lemma lower_length (a : string) : String.length (Py.lower a) = String.length a.
Proof. induction a as [|x a IH]; simpl; [reflexivity | now rewrite IH]. Qed.

(** ** The matcher is sound for [derives] *)

Module ReFacts.
Import Re.

Lemma consumed_append (w rest : string) : consumed (w ++ rest) rest = w.
Proof.
  unfold consumed. rewrite length_append.
  replace (String.length w + String.length rest - String.length rest)%nat
    with (String.length w) by lia.
  apply substring_prefix.
Qed.

Section Sound.
Context {A : Type}.

Lemma lit_sound (p s : string) (k : string -> option A) (x : A) :
  lit p s k = Some x ->
  exists w rest, s = w ++ rest /\ Py.lower w = Py.lower p /\ k rest = Some x.
Proof.
  revert s. induction p as [|c p IH]; intros s Hrun; cbn [lit] in Hrun.
  - exists "", s. auto.
  - destruct s as [|a s]; [discriminate|].
    destruct (accepts (Chr c) a) eqn:Hacc; [|discriminate].
    destruct (IH _ Hrun) as (w & rest & -> & Hw & Hk).
    exists (String a w), rest. cbn [accepts] in Hacc.
    apply Ascii.eqb_eq in Hacc. rewrite append_cons. simpl.
    rewrite Hacc, Hw. auto.
Qed.

Lemma rep_greedy_sound c lo hi n s (k : string -> option A) x :
  rep_greedy c lo hi n s k = Some x ->
  exists w rest, s = w ++ rest /\ all_accepted c w = true
    /\ (lo <= n + String.length w)%nat
    /\ (within hi n -> within hi (n + String.length w))
    /\ k rest = Some x.
Proof.
  revert n. induction s as [|a s IH]; intros n Hrun; cbn [rep_greedy] in Hrun.
  - destruct (lo <=? n)%nat eqn:Hlo; [|discriminate].
    apply Nat.leb_le in Hlo.
    exists "", "". simpl. rewrite Nat.add_0_r. auto.
  - assert (Hstop : (if (lo <=? n)%nat then k (String a s) else None) = Some x ->
      exists w rest, String a s = w ++ rest /\ all_accepted c w = true
        /\ (lo <= n + String.length w)%nat
        /\ (within hi n -> within hi (n + String.length w))
        /\ k rest = Some x).
    { intros Hk. destruct (lo <=? n)%nat eqn:Hlo; [|discriminate].
      apply Nat.leb_le in Hlo.
      exists "", (String a s). simpl. rewrite Nat.add_0_r. auto. }
    destruct (below hi n && accepts c a) eqn:Hgo; [|auto].
    apply andb_true_iff in Hgo as [Hbelow Hacc].
    destruct (rep_greedy c lo hi (S n) s k) as [y|] eqn:Hrec; [|auto].
    injection Hrun as ->.
    destruct (IH _ Hrec) as (w & rest & -> & Hall & Hlen & Hhi & Hk).
    exists (String a w), rest. rewrite append_cons. simpl.
    rewrite Hacc, Hall. repeat split; try lia; auto.
    intros _. replace (n + S (String.length w))%nat
      with (S n + String.length w)%nat by lia.
    apply Hhi. destruct hi as [h|]; simpl in *; [|exact I].
    apply Nat.ltb_lt in Hbelow. lia.
Qed.

Lemma rep_lazy_sound c lo hi n s (k : string -> option A) x :
  rep_lazy c lo hi n s k = Some x ->
  exists w rest, s = w ++ rest /\ all_accepted c w = true
    /\ (lo <= n + String.length w)%nat
    /\ (within hi n -> within hi (n + String.length w))
    /\ k rest = Some x.
Proof.
  revert n. induction s as [|a s IH]; intros n Hrun; cbn [rep_lazy] in Hrun.
  - destruct (lo <=? n)%nat eqn:Hlo.
    + apply Nat.leb_le in Hlo. destruct (k "") as [y|] eqn:Hk; [|discriminate].
      injection Hrun as ->. exists "", "". simpl. rewrite Nat.add_0_r. auto.
    + discriminate.
  - destruct (if (lo <=? n)%nat then k (String a s) else None) as [y|] eqn:Hstop.
    + injection Hrun as ->.
      destruct (lo <=? n)%nat eqn:Hlo; [|discriminate].
      apply Nat.leb_le in Hlo.
      exists "", (String a s). simpl. rewrite Nat.add_0_r. auto.
    + destruct (below hi n && accepts c a) eqn:Hgo; [|discriminate].
      apply andb_true_iff in Hgo as [Hbelow Hacc].
      destruct (IH _ Hrun) as (w & rest & -> & Hall & Hlen & Hhi & Hk).
      exists (String a w), rest. rewrite append_cons. simpl.
      rewrite Hacc, Hall. repeat split; try lia; auto.
      intros _. replace (n + S (String.length w))%nat
        with (S n + String.length w)%nat by lia.
      apply Hhi. destruct hi as [h|]; simpl in *; [|exact I].
      apply Nat.ltb_lt in Hbelow. lia.
Qed.

Lemma run_sound (r : re) s g (k : string -> groups -> option A) x :
  run r s g k = Some x ->
  exists w rest g',
    s = w ++ rest /\ derives r w rest g g' /\ k rest g' = Some x.
Proof.
  revert s g k. induction r as [p|c lo hi gr|a IHa b IHb|a IHa b IHb|a IHa|i a IHa|];
    intros s g k Hrun; cbn [run] in Hrun.
  - destruct (lit_sound _ _ _ _ Hrun) as (w & rest & -> & Hw & Hk).
    exists w, rest, g. simpl. auto.
  - assert (Hrep : exists w rest, s = w ++ rest /\ all_accepted c w = true
        /\ (lo <= 0 + String.length w)%nat
        /\ (within hi 0 -> within hi (0 + String.length w))
        /\ k rest g = Some x).
    { destruct gr; [eapply rep_greedy_sound | eapply rep_lazy_sound]; exact Hrun. }
    destruct Hrep as (w & rest & -> & Hall & Hlo & Hhi & Hk).
    exists w, rest, g. simpl in *. repeat split; auto.
    apply Hhi. destruct hi; simpl; [lia | exact I].
  - destruct (IHa _ _ _ Hrun) as (w1 & rest1 & g1 & -> & Ha & Hk1).
    destruct (IHb _ _ _ Hk1) as (w2 & rest & g' & -> & Hb & Hk).
    exists (w1 ++ w2), rest, g'. rewrite append_assoc. simpl.
    split; [reflexivity|]. split; [|exact Hk].
    exists w1, w2, g1. auto.
  - destruct (run a s g k) as [y|] eqn:Hleft.
    + injection Hrun as ->.
      destruct (IHa _ _ _ Hleft) as (w & rest & g' & -> & Ha & Hk).
      exists w, rest, g'. simpl. auto.
    + destruct (IHb _ _ _ Hrun) as (w & rest & g' & -> & Hb & Hk).
      exists w, rest, g'. simpl. auto.
  - destruct (run a s g k) as [y|] eqn:Hleft.
    + injection Hrun as ->.
      destruct (IHa _ _ _ Hleft) as (w & rest & g' & -> & Ha & Hk).
      exists w, rest, g'. simpl. auto.
    + exists "", s, g. simpl. auto.
  - destruct (IHa _ _ _ Hrun) as (w & rest & g' & -> & Ha & Hk).
    rewrite consumed_append in Hk.
    exists w, rest, (<[i := w]> g'). simpl. split; [reflexivity|].
    split; [|exact Hk]. exists g'. auto.
  - destruct (at_end s) eqn:Hend; [|discriminate].
    exists "", s, g. simpl. auto.
Qed.

End Sound.

Lemma match_sound (r : re) (s : string) (m : groups) :
  match_ r s = Some m ->
  exists w rest, s = w ++ rest /\ derives r w rest ∅ m.
Proof.
  intros Hrun. apply run_sound in Hrun as (w & rest & g' & -> & Hd & Hk).
  injection Hk as ->. eauto.
Qed.

Lemma search_sound (r : re) (s : string) (m : groups) :
  search r s = Some m ->
  exists pre w rest, s = pre ++ w ++ rest /\ derives r w rest ∅ m.
Proof.
  induction s as [|c s IH]; simpl; intros Hs.
  - destruct (match_ r "") as [g|] eqn:Hm; [|discriminate].
    injection Hs as ->. apply match_sound in Hm as (w & rest & Heq & Hd).
    exists "", w, rest. auto.
  - destruct (match_ r (String c s)) as [g|] eqn:Hm.
    + injection Hs as ->. apply match_sound in Hm as (w & rest & Heq & Hd).
      exists "", w, rest. auto.
    + destruct (IH Hs) as (pre & w & rest & -> & Hd).
      exists (String c pre), w, rest. auto.
Qed.

End ReFacts.

(** ** Anatomy of a match of [PADRAO] *)

Import Re ReFacts.


Ltac break_derivation :=
  repeat match goal with
  | H : exists _, _ |- _ => destruct H
  | H : _ /\ _ |- _ => destruct H
  | H : _ \/ _ |- _ => destruct H
  end.

Lemma PADRAO_anatomy (w rest : string) (m : groups) :
  derives PADRAO w rest ∅ m ->
  (exists w0 w1, w = w0 ++ w1 /\ Py.lower w0 = "registre")
  /\ (exists g1, m !! 1%nat = Some g1 /\ all_accepted amount_class g1 = true
                 /\ (1 <= String.length g1)%nat)
  /\ (exists g2, m !! 2%nat = Some g2
                 /\ (Py.lower g2 = "faturamento" \/ Py.lower g2 = "despesa"))
  /\ (exists g3, m !! 3%nat = Some g3 /\ date_slot g3)
  /\ (m !! 4%nat = None
      \/ exists g4, m !! 4%nat = Some g4 /\ (1 <= String.length g4)%nat).
Proof.
  unfold PADRAO. cbn [seq derives plus star one]. intros Hd.
  break_derivation; subst.
  all: split; [eexists _, _; split; [reflexivity|assumption]|].
  all: split; [eexists; split; [by simplify_map_eq | auto]|].
  all: split; [eexists; split; [by simplify_map_eq | auto]|].
  all: split;
    [eexists; split;
     [by simplify_map_eq
     |unfold date_slot, sep_class; eexists _, _, _, _, _;
      cbn [within] in *; repeat split; eauto; lia]|].
  all: first [left; by simplify_map_eq
             |right; eexists; split; [by simplify_map_eq | auto]].
Qed.

(** ** Characters *)

Lemma sep_cases (c : ascii) :
  accepts sep_class c = true -> c = "/"%char \/ c = "-"%char.
Proof.
  destruct c as [[] [] [] [] [] [] [] []]; vm_compute; intros Hc;
    first [discriminate Hc | now left | now right].
Qed.

Lemma digit_facts (c : ascii) :
  Py.isdigit c = true ->
  0 <= Py.digit_val c <= 9
  /\ Ascii.eqb c "/" = false /\ Ascii.eqb c "-" = false
  /\ Ascii.eqb c "0" = (Py.digit_val c =? 0)
  /\ Ascii.eqb c "1" = (Py.digit_val c =? 1)
  /\ Ascii.eqb c "3" = (Py.digit_val c =? 3)
  /\ Ascii.eqb c " " = false.
Proof.
  destruct c as [[] [] [] [] [] [] [] []]; vm_compute; intros Hc;
    first [discriminate Hc | repeat split; intros; discriminate].
Qed.

(** ** Digits and the date slot *)

Lemma read_digits_digit (c : ascii) (acc : Z) (n : nat) (s : string) :
  Py.isdigit c = true ->
  Py.read_digits acc n (String c s)
  = Py.read_digits (10 * acc + Py.digit_val c) (S n) s.
Proof. intros Hc. cbn [Py.read_digits]. now rewrite Hc. Qed.

Lemma read_digits_stop (c : ascii) (acc : Z) (n : nat) (s : string) :
  Py.isdigit c = false ->
  Py.read_digits acc n (String c s) = (acc, n, String c s).
Proof. intros Hc. cbn [Py.read_digits]. now rewrite Hc. Qed.

Lemma read_digits_nil (acc : Z) (n : nat) :
  Py.read_digits acc n "" = (acc, n, "").
Proof. reflexivity. Qed.

Lemma replace_cons_ne (old c : ascii) (new s : string) :
  Ascii.eqb c old = false ->
  Py.replace old new (String c s) = String c (Py.replace old new s).
Proof. intros Hc. cbn [Py.replace]. now rewrite Hc. Qed.

Lemma split_at_cons_ne (sep c : ascii) (s : string) :
  Ascii.eqb c sep = false ->
  Py.split_at sep (String c s)
  = match Py.split_at sep s with
    | Some (a, b) => Some (String c a, b)
    | None => None
    end.
Proof. intros Hc. cbn [Py.split_at]. now rewrite Hc. Qed.

Lemma days_in_month_le (y m : Z) : Py.days_in_month y m <= 31.
Proof.
  unfold Py.days_in_month.
  repeat match goal with |- context [if ?b then _ else _] => destruct b end; lia.
Qed.

Lemma valid_date_bounds (y m d : Z) :
  Py.valid_date y m d = true ->
  1 <= y <= 9999 /\ 1 <= m <= 12 /\ 1 <= d <= 31.
Proof.
  unfold Py.valid_date. intros Hv.
  repeat (apply andb_true_iff in Hv as [Hv ?]).
  pose proof (days_in_month_le y m). lia.
Qed.

Lemma directive_d_1 (a : ascii) :
  Py.isdigit a = true ->
  Py.directive_d (String a "")
  = if (1 <=? Py.digit_val a) && (Py.digit_val a <=? 31)
    then Some (Py.digit_val a) else None.
Proof.
  intros Ha. destruct (digit_facts a Ha) as (Ra & _).
  unfold Py.directive_d, Py.in_range.
  repeat match goal with
         | |- context [?x <=? ?y] => destruct (Z.leb_spec x y)
         end; cbn [andb]; try reflexivity; lia.
Qed.

Lemma directive_d_2 (a b : ascii) :
  Py.isdigit a = true -> Py.isdigit b = true ->
  Py.directive_d (String a (String b ""))
  = if (1 <=? 10 * Py.digit_val a + Py.digit_val b)
       && (10 * Py.digit_val a + Py.digit_val b <=? 31)
    then Some (10 * Py.digit_val a + Py.digit_val b) else None.
Proof.
  intros Ha Hb.
  destruct (digit_facts a Ha) as (Ra & _ & _ & Ea0 & _ & Ea3 & Easp).
  destruct (digit_facts b Hb) as (Rb & _).
  unfold Py.directive_d, Py.in_range. rewrite Ea0, Ea3, Easp.
  repeat match goal with
         | |- context [?x <=? ?y] => destruct (Z.leb_spec x y)
         | |- context [?x =? ?y] => destruct (Z.eqb_spec x y)
         end; cbn [andb orb]; try reflexivity; try lia; f_equal; lia.
Qed.

Lemma directive_m_1 (a : ascii) :
  Py.isdigit a = true ->
  Py.directive_m (String a "")
  = if (1 <=? Py.digit_val a) && (Py.digit_val a <=? 12)
    then Some (Py.digit_val a) else None.
Proof.
  intros Ha. destruct (digit_facts a Ha) as (Ra & _).
  unfold Py.directive_m, Py.in_range.
  repeat match goal with
         | |- context [?x <=? ?y] => destruct (Z.leb_spec x y)
         end; cbn [andb]; try reflexivity; lia.
Qed.

Lemma directive_m_2 (a b : ascii) :
  Py.isdigit a = true -> Py.isdigit b = true ->
  Py.directive_m (String a (String b ""))
  = if (1 <=? 10 * Py.digit_val a + Py.digit_val b)
       && (10 * Py.digit_val a + Py.digit_val b <=? 12)
    then Some (10 * Py.digit_val a + Py.digit_val b) else None.
Proof.
  intros Ha Hb.
  destruct (digit_facts a Ha) as (Ra & _ & _ & Ea0 & Ea1 & _).
  destruct (digit_facts b Hb) as (Rb & _).
  unfold Py.directive_m, Py.in_range. rewrite Ea0, Ea1.
  repeat match goal with
         | |- context [?x <=? ?y] => destruct (Z.leb_spec x y)
         | |- context [?x =? ?y] => destruct (Z.eqb_spec x y)
         end; cbn [andb orb]; try reflexivity; try lia; f_equal; lia.
Qed.

Lemma directive_Y_4 (a b c d : ascii) :
  Py.isdigit a = true -> Py.isdigit b = true ->
  Py.isdigit c = true -> Py.isdigit d = true ->
  Py.directive_Y (String a (String b (String c (String d ""))))
  = Some (10 * (10 * (10 * Py.digit_val a + Py.digit_val b)
                + Py.digit_val c) + Py.digit_val d).
Proof.
  intros Ha Hb Hc Hd. unfold Py.directive_Y. rewrite Ha, Hb, Hc, Hd.
  cbn [andb]. f_equal. ring.
Qed.

(** When a directive refuses the text, the numbers are no date either. *)
Lemma strptime_cases (cd cm : bool) (D M Y : Z) :
  (cd = (1 <=? D) && (D <=? 31)) -> (cm = (1 <=? M) && (M <=? 12)) ->
  match (if cd then Some D else None), (if cm then Some M else None), Some Y with
  | Some d, Some m, Some y =>
      if Py.valid_date y m d then Return (Py.Date y m d) else Raise ValueError
  | _, _, _ => Raise ValueError
  end
  = if Py.valid_date Y M D then Return (Py.Date Y M D) else Raise ValueError.
Proof.
  intros Hcd Hcm.
  destruct (Py.valid_date Y M D) eqn:Hv.
  - destruct (valid_date_bounds _ _ _ Hv) as (_ & HM & HD).
    assert (cd = true) as -> by (rewrite Hcd; apply andb_true_iff; lia).
    assert (cm = true) as -> by (rewrite Hcm; apply andb_true_iff; lia).
    now rewrite Hv.
  - destruct cd, cm; try reflexivity. now rewrite Hv.
Qed.

Lemma sep_not_digit (p : ascii) :
  accepts sep_class p = true -> Py.isdigit p = false.
Proof. intros Hp. destruct (sep_cases p Hp) as [-> | ->]; reflexivity. Qed.

Lemma replace_sep (p : ascii) (s : string) :
  accepts sep_class p = true ->
  Py.replace "-" "/" (String p s) = String "/" (Py.replace "-" "/" s).
Proof. intros Hp. destruct (sep_cases p Hp) as [-> | ->]; reflexivity. Qed.

Lemma split_at_hit (sep : ascii) (s : string) :
  Py.split_at sep (String sep s) = Some ("", s).
Proof. cbn [Py.split_at]. now rewrite Ascii.eqb_refl. Qed.

Lemma strptime_slot (g3 : string) :
  date_slot g3 ->
  Py.strptime_dmY (Py.replace "-" "/" g3)
  = let '(d, m, y) := slot_dmy g3 in
    if Py.valid_date y m d then Return (Py.Date y m d) else Raise ValueError.
Proof.
  intros (d & s1 & mo & s2 & y & -> & Hd & Hdl & Hs1 & Hs1l & Hmo & Hmol
          & Hs2 & Hs2l & Hy & Hyl).
  destruct d as [|a [|b [|? ?]]]; cbn [String.length] in Hdl; try lia.
  all: destruct mo as [|c [|e [|? ?]]]; cbn [String.length] in Hmol; try lia.
  all: destruct y as [|y1 [|y2 [|y3 [|y4 [|? ?]]]]]; cbn [String.length] in Hyl; try lia.
  all: destruct s1 as [|p [|? ?]]; cbn [String.length] in Hs1l; try lia.
  all: destruct s2 as [|q [|? ?]]; cbn [String.length] in Hs2l; try lia.
  all: cbn [all_accepted accepts] in *.
  all: rewrite ?andb_true_r in *.
  all: repeat match goal with
              | H : _ && _ = true |- _ => apply andb_true_iff in H as [? ?]
              end.
  all: rewrite !append_cons, !append_nil_l.
  all: repeat match goal with
              | H : Py.isdigit ?x = true |- _ =>
                  lazymatch goal with
                  | _ : Ascii.eqb x "/" = false |- _ => fail
                  | _ => destruct (digit_facts x H) as (_ & ? & ? & _)
                  end
              end.
  all: pose proof (sep_not_digit p Hs1); pose proof (sep_not_digit q Hs2).
  all: unfold Py.strptime_dmY, slot_dmy.
  all: repeat first [rewrite replace_cons_ne by assumption
                    |rewrite replace_sep by assumption].
  all: cbn [Py.replace].
  all: repeat first [rewrite split_at_cons_ne by assumption
                    |rewrite split_at_hit].
  all: repeat first [rewrite read_digits_digit by assumption
                    |rewrite read_digits_stop by assumption
                    |rewrite read_digits_nil
                    |progress cbn [tail]].
  all: rewrite ?directive_d_1, ?directive_d_2, ?directive_m_1, ?directive_m_2,
         ?directive_Y_4 by assumption.
  all: rewrite ?Z.mul_0_r, ?Z.add_0_l.
  all: apply strptime_cases; reflexivity.
Qed.

(** ** The parser *)

Lemma search_anatomy (s : string) (m : groups) :
  search PADRAO s = Some m ->
  (exists pre w0 post, s = pre ++ w0 ++ post /\ Py.lower w0 = "registre")
  /\ (exists g1, m !! 1%nat = Some g1 /\ all_accepted amount_class g1 = true
                 /\ (1 <= String.length g1)%nat)
  /\ (exists g2, m !! 2%nat = Some g2
                 /\ (Py.lower g2 = "faturamento" \/ Py.lower g2 = "despesa"))
  /\ (exists g3, m !! 3%nat = Some g3 /\ date_slot g3)
  /\ (m !! 4%nat = None
      \/ exists g4, m !! 4%nat = Some g4 /\ (1 <= String.length g4)%nat).
Proof.
  intros Hs. apply search_sound in Hs as (pre & w & rest & -> & Hd).
  apply PADRAO_anatomy in Hd as ((w0 & w1 & -> & Hw0) & Hrest).
  split; [|exact Hrest].
  exists pre, w0, (w1 ++ rest). now rewrite append_assoc.
Qed.

Lemma float_raises (s : string) (e : exn) :
  Py.float s = Raise e -> e = ValueError.
Proof.
  unfold Py.float.
  repeat match goal with
         | |- context [let '(_, _) := ?x in _] => destruct x
         | |- context [match ?x with _ => _ end] => destruct x
         end; intros Hf; congruence.
Qed.

Lemma tentar_match (txt : string) (m : groups) (g1 g2 g3 : string) :
  search PADRAO (Py.strip txt) = Some m ->
  m !! 1%nat = Some g1 -> m !! 2%nat = Some g2 -> m !! 3%nat = Some g3 ->
  tentar_extrair_comando txt
  = do v <- Py.float (normalizado g1);
    do d <- Py.strptime_dmY (Py.replace "-" "/" g3);
    Return (Some {| valor := v;
                    tipo := Py.lower g2;
                    data := Py.isoformat d;
                    descricao :=
                      match m !! 4%nat with
                      | Some g4 =>
                          if Py.truthy g4 then Some (Py.strip g4) else None
                      | None => None
                      end |}).
Proof.
  intros Hs H1 H2 H3. unfold tentar_extrair_comando, group.
  rewrite Hs, H1, H2, H3. cbn [bind].
  unfold normalizado. destruct (Py.float _); cbn [bind]; [|reflexivity].
  destruct (Py.strptime_dmY _); reflexivity.
Qed.

Lemma literal_here_intro (p w post : string) :
  Py.lower w = Py.lower p -> literal_here p (w ++ post) = true.
Proof.
  revert w. induction p as [|x p IH]; intros w Hw; [reflexivity|].
  destruct w as [|c w]; [discriminate|].
  cbn [Py.lower] in Hw. injection Hw as Hc Hw.
  rewrite append_cons. cbn [literal_here accepts].
  rewrite Hc, Ascii.eqb_refl. cbn [andb]. now apply IH.
Qed.

Lemma literal_found_intro (p pre w post : string) :
  Py.lower w = Py.lower p -> literal_found p (pre ++ w ++ post) = true.
Proof.
  intros Hw. induction pre as [|c pre IH].
  - rewrite append_nil_l.
    destruct (w ++ post) eqn:Heq; cbn [literal_found];
      rewrite <- Heq, (literal_here_intro _ _ _ Hw); reflexivity.
  - rewrite append_cons. cbn [literal_found]. rewrite IH. apply orb_true_r.
Qed.


(** The three values are the floats that Python writes [1234.56], [150.0]
    and [10.5]. *)
Lemma amounts_nearest :
  nearest_binary64 123456 100 f_1234_56
  /\ nearest_binary64 150 1 f_150
  /\ nearest_binary64 105 10 f_10_5.
Proof. vm_compute. repeat split; intros; discriminate. Qed.

(** [float] is only ever given digits and points. *)
Lemma normalizado_alphabet (g1 : string) :
  all_accepted amount_class g1 = true ->
  all_accepted (Union Digit (Chr ".")) (normalizado g1) = true.
Proof.
  unfold normalizado. induction g1 as [|c g1 IH]; [reflexivity|].
  cbn [all_accepted]. intros Hc. apply andb_true_iff in Hc as [Hc Hg].
  specialize (IH Hg). cbn [Py.replace].
  destruct (Ascii.eqb c ".") eqn:Hdot; [exact IH|].
  cbn [Py.replace].
  destruct (Ascii.eqb c ",") eqn:Hcomma.
  - change ("." ++ ?s) with (String "." s). cbn [all_accepted]. now rewrite IH.
  - cbn [all_accepted]. rewrite IH, andb_true_r.
    revert Hc Hdot Hcomma.
    destruct c as [[] [] [] [] [] [] [] []]; vm_compute; congruence.
Qed.

(** C1 (as amended). A sentence that matches the pattern but whose date
    slot is not a day of the calendar makes [tentar_extrair_comando] raise
    [ValueError]; it does not return the no-match result. *)
Theorem C1_invalid_date_raises (txt : string) (m : groups) (g3 : string) :
  search PADRAO (Py.strip txt) = Some m ->
  m !! 3%nat = Some g3 ->
  calendar_date g3 = false ->
  tentar_extrair_comando txt = Raise ValueError.
Proof.
  intros Hs H3 Hcal.
  destruct (search_anatomy _ _ Hs)
    as (_ & (g1 & H1 & _) & (g2 & H2 & _) & (g3' & H3' & Hslot) & _).
  assert (g3' = g3) as -> by congruence.
  rewrite (tentar_match _ _ _ _ _ Hs H1 H2 H3).
  destruct (Py.float (normalizado g1)) as [v|e] eqn:Hf; cbn [bind].
  - rewrite (strptime_slot _ Hslot).
    unfold calendar_date in Hcal. destruct (slot_dmy g3) as [[d mo] y].
    now rewrite Hcal.
  - now rewrite (float_raises _ _ Hf).
Qed.

Lemma C1_invalid_date_raises_witness :
  tentar_extrair_comando "Registre no banco de dados R$ 100,00 de despesas em 31/02/2024."
  = Raise ValueError.
Proof.
  apply (C1_invalid_date_raises _
           (<[3%nat := "31/02/2024"]>
              (<[2%nat := "despesa"]> (<[1%nat := "100,00"]> ∅)))
           "31/02/2024").
  - vm_compute. reflexivity.
  - vm_compute. reflexivity.
  - vm_compute. reflexivity.
Defined.

(** C1 as stated fails: with the date slot ["31/02/2024"] the result is an
    exception, not the no-match result. *)
Lemma C1_counterexample :
  search PADRAO (Py.strip "registre 150 de faturamento em 31/02/2024") <> None
  /\ tentar_extrair_comando "registre 150 de faturamento em 31/02/2024"
     <> Return None
  /\ tentar_extrair_comando "registre 150 de faturamento em 31/02/2024"
     = Raise ValueError.
Proof. repeat split; vm_compute; congruence. Qed.

(** ** The optional phrase *)

Lemma literal_found_here (p w post : string) :
  Py.lower w = Py.lower p -> literal_found p (w ++ post) = true.
Proof. intros Hw. exact (literal_found_intro p "" w post Hw). Qed.

Lemma literal_found_later (p a b : string) :
  literal_found p b = true -> literal_found p (a ++ b) = true.
Proof.
  intros Hb. induction a as [|c a IH]; [exact Hb|].
  rewrite append_cons. cbn [literal_found]. rewrite IH. apply orb_true_r.
Qed.

Lemma literal_found_prefix (p w rest : string) :
  literal_found p w = true -> literal_found p (w ++ rest) = true.
Proof.
  induction w as [|c w IH]; intros Hp.
  - destruct p; [|discriminate]. now destruct rest.
  - rewrite append_cons. cbn [literal_found] in Hp |- *.
    apply orb_true_iff in Hp as [Hp | Hp].
    + apply orb_true_iff. left. clear IH. revert c w Hp.
      induction p as [|x p IHp]; intros c w Hp; [reflexivity|].
      cbn [literal_here] in Hp |- *. apply andb_true_iff in Hp as [Hx Hp].
      rewrite Hx. cbn [andb]. destruct p as [|y p]; [reflexivity|].
      destruct w as [|c' w]; [discriminate|].
      rewrite append_cons. now apply IHp.
    + rewrite (IH Hp). apply orb_true_r.
Qed.

Lemma PADRAO_partes :
  PADRAO = Seq (Str "registre") (Seq (Opt frase_opcional) PADRAO_resto).
Proof. reflexivity. Qed.

Section Frase.
Context {A : Type}.

(** The phrase at the head of the subject is taken whole, in one way. *)
Lemma frase_run (s : string) (g : groups)
    (k : string -> groups -> option A) :
  run frase_opcional (" no banco de dados" ++ s) g k = k s g.
Proof. cbv. now destruct (k s g). Qed.

(** Where the phrase matches, its literal "banco" is found. *)
Lemma frase_banco (w rest : string) (g g' : groups) :
  derives frase_opcional w rest g g' -> literal_found "banco" w = true.
Proof.
  unfold frase_opcional. cbn [seq derives plus]. intros Hd.
  break_derivation; subst.
  rewrite ?append_assoc.
  repeat first [apply literal_found_here; assumption
               | apply literal_found_later].
Qed.

Lemma frase_absent (s : string) (g : groups)
    (k : string -> groups -> option A) :
  literal_found "banco" s = false -> run frase_opcional s g k = None.
Proof.
  intros Hs. destruct (run frase_opcional s g k) as [x|] eqn:Hrun;
    [|reflexivity].
  apply run_sound in Hrun as (w & rest & g' & -> & Hd & _).
  apply frase_banco in Hd.
  rewrite (literal_found_prefix _ _ rest Hd) in Hs. discriminate.
Qed.

End Frase.

Lemma match_sem_frase (s : string) :
  literal_found "banco" s = false ->
  match_ PADRAO ("registre" ++ s) = match_ PADRAO_resto s.
Proof.
  intros Hs. unfold match_. rewrite PADRAO_partes.
  change (run (Seq (Str "registre") (Seq (Opt frase_opcional) PADRAO_resto))
              ("registre" ++ s) ∅ (fun _ g => Some g))
    with (run (Seq (Opt frase_opcional) PADRAO_resto) s ∅ (fun _ g => Some g)).
  cbn [run]. now rewrite (frase_absent _ _ _ Hs).
Qed.

Lemma resto_apos_frase (s : string) :
  match_ PADRAO_resto (" no banco de dados" ++ s) = None.
Proof. vm_compute. reflexivity. Qed.

Lemma match_com_frase (s : string) :
  match_ PADRAO ("registre no banco de dados" ++ s) = match_ PADRAO_resto s.
Proof.
  unfold match_. rewrite PADRAO_partes.
  change (run (Seq (Str "registre") (Seq (Opt frase_opcional) PADRAO_resto))
              ("registre no banco de dados" ++ s) ∅ (fun _ g => Some g))
    with (run (Seq (Opt frase_opcional) PADRAO_resto)
              (" no banco de dados" ++ s) ∅ (fun _ g => Some g)).
  cbn [run]. rewrite frase_run.
  destruct (run PADRAO_resto s ∅ (fun _ g => Some g)); [reflexivity|].
  exact (resto_apos_frase s).
Qed.

Lemma search_skip (r : re) (a : ascii) (t : string) :
  match_ r (String a t) = None -> search r (String a t) = search r t.
Proof. intros Hm. cbn [search]. now rewrite Hm. Qed.

Lemma space_is_not_g (c : ascii) :
  Py.isspace c = true -> accepts (Chr "g") c = false.
Proof. destruct c as [[] [] [] [] [] [] [] []]; vm_compute; congruence. Qed.

(** After a failure at its head, the search goes on behind the word, and
    behind the phrase. *)
Lemma search_apos_registre (c : ascii) (rest : string) :
  Py.isspace c = true ->
  match_ PADRAO ("registre" ++ String c rest) = None ->
  search PADRAO ("registre" ++ String c rest) = search PADRAO (String c rest).
Proof.
  intros Hc Hm.
  change ("registre" ++ String c rest)
    with (String "r" (String "e" (String "g" (String "i" (String "s"
           (String "t" (String "r" (String "e" (String c rest))))))))) in *.
  rewrite search_skip by exact Hm.
  do 5 (rewrite search_skip by (vm_compute; reflexivity)).
  rewrite search_skip.
  - rewrite search_skip by (vm_compute; reflexivity). reflexivity.
  - unfold match_. rewrite PADRAO_partes. cbn [run lit].
    change (accepts (Chr "r") "r") with true.
    change (accepts (Chr "e") "e") with true.
    cbv iota. now rewrite (space_is_not_g c Hc).
Qed.

Lemma search_apos_frase (s : string) :
  match_ PADRAO ("registre no banco de dados" ++ s) = None ->
  search PADRAO ("registre no banco de dados" ++ s) = search PADRAO s.
Proof.
  intros Hm.
  change ("registre no banco de dados" ++ s)
    with (String "r" ("egistre no banco de dados" ++ s)) in *.
  rewrite search_skip by exact Hm.
  repeat match goal with
  | |- context [search PADRAO (?p ++ s)] =>
      match p with
      | String ?a ?t =>
          change (p ++ s) with (String a (t ++ s));
          rewrite (search_skip PADRAO a (t ++ s)) by (vm_compute; reflexivity)
      end
  end.
  reflexivity.
Qed.

(** The search on a sentence that begins with "registre" and then
    whitespace, and has no "banco", is the search on the sentence with
    " no banco de dados" put after "registre". *)
Lemma search_frase_opcional (c : ascii) (rest : string) :
  Py.isspace c = true ->
  literal_found "banco" (String c rest) = false ->
  search PADRAO ("registre no banco de dados" ++ String c rest)
  = search PADRAO ("registre" ++ String c rest).
Proof.
  intros Hc Hb.
  pose proof (match_com_frase (String c rest)) as Hlong.
  pose proof (match_sem_frase (String c rest) Hb) as Hshort.
  destruct (match_ PADRAO_resto (String c rest)) as [m|] eqn:Hm.
  - change ("registre no banco de dados" ++ String c rest)
      with (String "r" ("egistre no banco de dados" ++ String c rest)) in *.
    change ("registre" ++ String c rest)
      with (String "r" ("egistre" ++ String c rest)) in *.
    cbn [search]. now rewrite Hlong, Hshort.
  - rewrite (search_apos_frase _ Hlong).
    now rewrite (search_apos_registre c rest Hc Hshort).
Qed.

(** [rstrip] behind a word that ends in a letter. *)
Lemma rstrip_cons_letter (a : ascii) (s : string) :
  Py.isspace a = false -> Py.rstrip (String a s) = String a (Py.rstrip s).
Proof. intros Ha. cbn [Py.rstrip]. rewrite Ha. now destruct (Py.rstrip s). Qed.

Lemma strip_apos_registre (s : string) :
  Py.strip ("registre" ++ s) = "registre" ++ Py.rstrip s.
Proof.
  unfold Py.strip.
  change (Py.lstrip ("registre" ++ s)) with ("registre" ++ s).
  cbv [append]. cbn [Py.rstrip].
  destruct (Py.rstrip s); reflexivity.
Qed.

Lemma strip_apos_frase (s : string) :
  Py.strip ("registre no banco de dados" ++ s)
  = "registre no banco de dados" ++ Py.rstrip s.
Proof.
  unfold Py.strip.
  change (Py.lstrip ("registre no banco de dados" ++ s))
    with ("registre no banco de dados" ++ s).
  cbv [append]. cbn [Py.rstrip].
  destruct (Py.rstrip s); reflexivity.
Qed.

Lemma rstrip_prefix (s : string) : exists ws, s = Py.rstrip s ++ ws.
Proof.
  induction s as [|c s [ws IH]]; [now exists ""|].
  cbn [Py.rstrip]. destruct (Py.rstrip s) as [|x r] eqn:Hr.
  - destruct (Py.isspace c).
    + now exists (String c s).
    + exists ws. rewrite IH at 1. reflexivity.
  - exists ws. rewrite IH at 1. reflexivity.
Qed.

Lemma rstrip_space_cons (c : ascii) (s : string) :
  Py.isspace c = true ->
  Py.rstrip (String c s) = ""
  \/ Py.rstrip (String c s) = String c (Py.rstrip s).
Proof.
  intros Hc. cbn [Py.rstrip]. rewrite Hc.
  destruct (Py.rstrip s); auto.
Qed.

(** The phrase is optional: put behind "registre", it leaves the result
    of a sentence that had no "banco" as it was. *)
Lemma tentar_frase_opcional (c : ascii) (rest : string) :
  Py.isspace c = true ->
  literal_found "banco" (String c rest) = false ->
  tentar_extrair_comando ("registre no banco de dados" ++ String c rest)
  = tentar_extrair_comando ("registre" ++ String c rest).
Proof.
  intros Hc Hb. unfold tentar_extrair_comando.
  rewrite strip_apos_frase, strip_apos_registre.
  destruct (rstrip_space_cons c rest Hc) as [-> | Heq].
  - reflexivity.
  - rewrite Heq, search_frase_opcional; [reflexivity | exact Hc |].
    destruct (literal_found "banco" (String c (Py.rstrip rest))) eqn:Hf;
      [|reflexivity].
    destruct (rstrip_prefix rest) as [ws Hws].
    rewrite Hws, <- append_cons in Hb.
    now rewrite (literal_found_prefix _ _ ws Hf) in Hb.
Qed.

(** C2 (as amended). The word "registre" is mandatory: a sentence in
    which the pattern's literal "registre" is found nowhere yields the
    no-match result, whatever else it contains. Only the continuation
    "no banco de dados" is optional: a sentence that begins with
    "registre" and then whitespace, and in which the literal "banco" is
    found nowhere, gives the same result when " no banco de dados" is put
    behind "registre"; so "registre no banco de dados 150 de faturamento
    em 12/05/2024" gives the record of "registre 150 de faturamento em
    12/05/2024". *)
Theorem C2_registre_is_mandatory :
  (forall txt : string,
     literal_found "registre" (Py.strip txt) = false ->
     tentar_extrair_comando txt = Return None)
  /\ (forall (c : ascii) (resto : string),
        Py.isspace c = true ->
        literal_found "banco" (String c resto) = false ->
        tentar_extrair_comando
          ("registre no banco de dados" ++ String c resto)
        = tentar_extrair_comando ("registre" ++ String c resto))
  /\ tentar_extrair_comando "registre 150 de faturamento em 12/05/2024"
     = Return (Some {| data := "2024-05-12"; tipo := "faturamento";
                       valor := f_150; descricao := None |})
  /\ tentar_extrair_comando
       "registre no banco de dados 150 de faturamento em 12/05/2024"
     = tentar_extrair_comando "registre 150 de faturamento em 12/05/2024".
Proof.
  split; [|split; [exact tentar_frase_opcional|split; vm_compute; reflexivity]].
  intros txt Hocc. unfold tentar_extrair_comando.
  destruct (search PADRAO (Py.strip txt)) as [m|] eqn:Hs; [|reflexivity].
  destruct (search_anatomy _ _ Hs) as ((pre & w0 & post & Heq & Hw0) & _).
  rewrite Heq, (literal_found_intro "registre" pre w0 post Hw0) in Hocc.
  discriminate.
Qed.

Lemma C2_registre_is_mandatory_witness :
  tentar_extrair_comando "lance 150 de faturamento em 12/05/2024 com descricao aluguel"
  = Return None
  /\ tentar_extrair_comando
       "registre no banco de dados R$ 1.234,56 de despesas em 1-5-2024"
     = tentar_extrair_comando "registre R$ 1.234,56 de despesas em 1-5-2024".
Proof.
  destruct C2_registre_is_mandatory as (Hsem & Hfrase & _).
  split.
  - apply Hsem. vm_compute. reflexivity.
  - apply (Hfrase " "%char "R$ 1.234,56 de despesas em 1-5-2024");
      vm_compute; reflexivity.
Defined.

(** C2 as stated fails: every mandatory slot is there and only the leading
    word is left out, yet there is no record. *)
Lemma C2_counterexample :
  tentar_extrair_comando "150 de faturamento em 12/05/2024" = Return None.
Proof. vm_compute. reflexivity. Qed.

(** C4. The amount of the record is [float] of the amount slot with every
    ['.'] removed and then every [','] turned into ['.']; so the slots
    ["1.234,56"], ["150"] and ["10,5"] give 1234.56, 150.0 and 10.5. *)
Theorem C4_amount_normalization (txt : string) (m : groups) (g1 g3 : string) :
  search PADRAO (Py.strip txt) = Some m ->
  m !! 1%nat = Some g1 ->
  m !! 3%nat = Some g3 ->
  calendar_date g3 = true ->
  (forall v, Py.float (Py.replace "," "." (Py.replace "." "" g1)) = Return v ->
     exists r, tentar_extrair_comando txt = Return (Some r) /\ valor r = v)
  /\ (g1 = "1.234,56" ->
      exists r, tentar_extrair_comando txt = Return (Some r)
                /\ valor r = f_1234_56)
  /\ (g1 = "150" ->
      exists r, tentar_extrair_comando txt = Return (Some r)
                /\ valor r = f_150)
  /\ (g1 = "10,5" ->
      exists r, tentar_extrair_comando txt = Return (Some r)
                /\ valor r = f_10_5).
Proof.
  intros Hs H1 H3 Hcal.
  destruct (search_anatomy _ _ Hs)
    as (_ & _ & (g2 & H2 & _) & (g3' & H3' & Hslot) & _).
  assert (g3' = g3) as -> by congruence.
  assert (Hgen : forall v,
    Py.float (Py.replace "," "." (Py.replace "." "" g1)) = Return v ->
    exists r, tentar_extrair_comando txt = Return (Some r) /\ valor r = v).
  { intros v Hv. rewrite (tentar_match _ _ _ _ _ Hs H1 H2 H3).
    unfold normalizado. rewrite Hv. cbn [bind].
    rewrite (strptime_slot _ Hslot).
    unfold calendar_date in Hcal. destruct (slot_dmy g3) as [[d mo] y].
    rewrite Hcal. cbn [bind]. eexists. split; reflexivity. }
  split; [exact Hgen|].
  repeat split; intros ->; apply Hgen; vm_compute; reflexivity.
Qed.

Lemma C4_amount_normalization_witness :
  exists r,
    tentar_extrair_comando "registre 1.234,56 de despesa em 12/05/2024"
    = Return (Some r) /\ valor r = f_1234_56.
Proof.
  refine (proj1 (proj2 (C4_amount_normalization
            "registre 1.234,56 de despesa em 12/05/2024"
            (<[3%nat := "12/05/2024"]>
               (<[2%nat := "despesa"]> (<[1%nat := "1.234,56"]> ∅)))
            "1.234,56" "12/05/2024" _ _ _ _)) eq_refl).
  - vm_compute. reflexivity.
  - vm_compute. reflexivity.
  - vm_compute. reflexivity.
  - vm_compute. reflexivity.
Defined.

(** C5. The date of the record depends on the date slot only through its
    day, month and year, so the separators do not matter; the slots
    ["12/05/2024"], ["12-05-2024"], ["12/05-2024"] and ["12-05/2024"] all
    give ["2024-05-12"]. *)
Theorem C5_date_normalization (txt : string) (m : groups) (g1 g3 : string)
    (v : spec_float) :
  search PADRAO (Py.strip txt) = Some m ->
  m !! 1%nat = Some g1 ->
  Py.float (normalizado g1) = Return v ->
  m !! 3%nat = Some g3 ->
  (In g3 ["12/05/2024"; "12-05-2024"; "12/05-2024"; "12-05/2024"] ->
   exists r, tentar_extrair_comando txt = Return (Some r)
             /\ data r = "2024-05-12")
  /\ (forall txt' m' g3',
        search PADRAO (Py.strip txt') = Some m' ->
        m' !! 1%nat = Some g1 -> m' !! 2%nat = m !! 2%nat ->
        m' !! 4%nat = m !! 4%nat ->
        m' !! 3%nat = Some g3' -> slot_dmy g3' = slot_dmy g3 ->
        tentar_extrair_comando txt' = tentar_extrair_comando txt).
Proof.
  intros Hs H1 Hv H3.
  destruct (search_anatomy _ _ Hs)
    as (_ & _ & (g2 & H2 & _) & (g3_ & H3_ & Hslot) & _).
  assert (g3_ = g3) as -> by congruence.
  split.
  - intros Hin. rewrite (tentar_match _ _ _ _ _ Hs H1 H2 H3), Hv. cbn [bind].
    assert (Hd : Py.strptime_dmY (Py.replace "-" "/" g3)
                 = Return (Py.Date 2024 5 12)).
    { cbn [In] in Hin. destruct Hin as [<- | [<- | [<- | [<- | []]]]];
        vm_compute; reflexivity. }
    rewrite Hd. cbn [bind]. eexists. split; [reflexivity|].
    vm_compute. reflexivity.
  - intros txt' m' g3' Hs' H1' H2' H4' H3' Hnum.
    destruct (search_anatomy _ _ Hs')
      as (_ & _ & _ & (g3x & H3x & Hslot') & _).
    assert (g3x = g3') as -> by congruence.
    rewrite H2 in H2'.
    rewrite (tentar_match _ _ _ _ _ Hs H1 H2 H3).
    rewrite (tentar_match _ _ _ _ _ Hs' H1' H2' H3').
    rewrite (strptime_slot _ Hslot), (strptime_slot _ Hslot'), Hnum, H4'.
    reflexivity.
Qed.

Lemma C5_date_normalization_witness :
  (exists r,
     tentar_extrair_comando "registre 10,5 de faturamento em 12-05/2024 com descricao feira"
     = Return (Some r) /\ data r = "2024-05-12")
  /\ tentar_extrair_comando "REGISTRE  10,5 de faturamento em 12/05/2024 com descricao feira"
     = tentar_extrair_comando "registre 10,5 de faturamento em 12-05/2024 com descricao feira".
Proof.
  pose proof (C5_date_normalization
    "registre 10,5 de faturamento em 12-05/2024 com descricao feira"
    (<[4%nat := "feira"]>
       (<[3%nat := "12-05/2024"]>
          (<[2%nat := "faturamento"]> (<[1%nat := "10,5"]> ∅))))
    "10,5" "12-05/2024" f_10_5) as Hthm.
  destruct Hthm as [Hiso Hsame].
  - vm_compute. reflexivity.
  - vm_compute. reflexivity.
  - vm_compute. reflexivity.
  - vm_compute. reflexivity.
  - split.
    + apply Hiso. cbn [In]. auto.
    + apply (Hsame _
        (<[4%nat := "feira"]>
           (<[3%nat := "12/05/2024"]>
              (<[2%nat := "faturamento"]> (<[1%nat := "10,5"]> ∅))))
        "12/05/2024").
      * vm_compute. reflexivity.
      * vm_compute. reflexivity.
      * vm_compute. reflexivity.
      * vm_compute. reflexivity.
      * vm_compute. reflexivity.
      * vm_compute. reflexivity.
Defined.

(** ** The order of [ORDER BY] *)

Lemma compare_refl (x : string) : String.compare x x = Eq.
Proof.
  pose proof (String.compare_antisym x x) as Ha.
  destruct (String.compare x x); simpl in Ha; congruence.
Qed.

Lemma compare_lt_trans (x y z : string) :
  String.compare x y = Lt -> String.compare y z = Lt -> String.compare x z = Lt.
Proof.
  intros Hxy Hyz.
  apply OrderedTypeEx.String_as_OT.cmp_lt in Hxy, Hyz.
  apply OrderedTypeEx.String_as_OT.cmp_lt.
  eapply OrderedTypeEx.String_as_OT.lt_trans; eassumption.
Qed.

Lemma sql_cmp_text_antisym (a b : option string) :
  sql_cmp_text a b = CompOpp (sql_cmp_text b a).
Proof.
  destruct a, b; simpl; try reflexivity. apply String.compare_antisym.
Qed.

Lemma sql_cmp_text_eq (a b : option string) :
  sql_cmp_text a b = Eq <-> a = b.
Proof.
  destruct a as [x|], b as [y|]; simpl; split; intros Heq;
    try congruence.
  - f_equal. now apply String.compare_eq_iff.
  - injection Heq as ->. apply compare_refl.
Qed.

Lemma sql_cmp_text_lt_trans (a b c : option string) :
  sql_cmp_text a b = Lt -> sql_cmp_text b c = Lt -> sql_cmp_text a c = Lt.
Proof.
  destruct a, b, c; simpl; try congruence. apply compare_lt_trans.
Qed.

Lemma sql_cmp_text_gt_trans (a b c : option string) :
  sql_cmp_text a b = Gt -> sql_cmp_text b c = Gt -> sql_cmp_text a c = Gt.
Proof.
  intros Hab Hbc.
  rewrite sql_cmp_text_antisym in Hab, Hbc |- *.
  destruct (sql_cmp_text b a) eqn:Hba; try discriminate.
  destruct (sql_cmp_text c b) eqn:Hcb; try discriminate.
  now rewrite (sql_cmp_text_lt_trans _ _ _ Hcb Hba).
Qed.

Lemma SFcompare_antisym (x y : spec_float) :
  SFcompare y x = option_map CompOpp (SFcompare x y).
Proof.
  destruct x as [sx|sx| |sx mx ex], y as [sy|sy| |sy my ey]; simpl;
    try reflexivity;
    try (destruct sx; reflexivity); try (destruct sy; reflexivity);
    try (destruct sx, sy; reflexivity).
  f_equal. rewrite (Z.compare_antisym ey ex).
  change (Pos.compare_cont Eq my mx) with (Pos.compare my mx).
  change (Pos.compare_cont Eq mx my) with (Pos.compare mx my).
  rewrite (Pos.compare_antisym my mx).
  destruct sx, sy, (ey ?= ex), (my ?= mx)%positive; reflexivity.
Qed.

Lemma sql_cmp_real_antisym (a b : option spec_float) :
  sql_cmp_real b a = CompOpp (sql_cmp_real a b).
Proof.
  destruct a as [x|], b as [y|]; simpl; try reflexivity.
  rewrite (SFcompare_antisym x y). now destruct (SFcompare x y).
Qed.

Ltac cmp_cases :=
  repeat match goal with
  | H : context [Pos.compare_cont Eq ?a ?b] |- _ =>
      change (Pos.compare_cont Eq a b) with (Pos.compare a b) in H
  | |- context [Pos.compare_cont Eq ?a ?b] =>
      change (Pos.compare_cont Eq a b) with (Pos.compare a b)
  end;
  repeat match goal with
  | H : context [(?a ?= ?b)%Z] |- _ =>
      destruct (Z.compare_spec a b); cbn [CompOpp] in *
  | |- context [(?a ?= ?b)%Z] =>
      destruct (Z.compare_spec a b); cbn [CompOpp] in *
  | H : context [(?a ?= ?b)%positive] |- _ =>
      destruct (Pos.compare_spec a b); cbn [CompOpp] in *
  | |- context [(?a ?= ?b)%positive] =>
      destruct (Pos.compare_spec a b); cbn [CompOpp] in *
  end.

Lemma SFcompare_ge_trans (x y z : spec_float) :
  y <> S754_nan ->
  SFcompare x y <> Some Lt -> SFcompare y z <> Some Lt ->
  SFcompare x z <> Some Lt.
Proof.
  destruct x as [sx|sx| |sx mx ex], y as [sy|sy| |sy my ey],
    z as [sz|sz| |sz mz ez]; intros Hy Hxy Hyz; try congruence;
    cbn [SFcompare] in *;
    try (destruct sx); try (destruct sy); try (destruct sz);
    try congruence; cmp_cases; subst; try congruence; try lia.
Qed.

Lemma sql_cmp_real_ge_trans (a b c : option spec_float) :
  b <> Some S754_nan ->
  sql_cmp_real a b <> Lt -> sql_cmp_real b c <> Lt -> sql_cmp_real a c <> Lt.
Proof.
  destruct a as [x|], b as [y|], c as [z|]; cbn [sql_cmp_real];
    intros Hb Hab Hbc; try congruence.
  assert (Hy : y <> S754_nan) by congruence.
  pose proof (SFcompare_ge_trans x y z Hy) as Ht.
  destruct (SFcompare x y) as [[]|], (SFcompare y z) as [[]|],
    (SFcompare x z) as [[]|]; cbn in *; try congruence;
    exfalso; refine (Ht _ _ eq_refl); congruence.
Qed.

Lemma sql_sum_not_nan (vs : list spec_float) : sql_sum vs <> Some S754_nan.
Proof.
  unfold sql_sum. destruct vs as [|v vs]; [discriminate|].
  destruct (soma (v :: vs)); cbn [is_nan]; congruence.
Qed.

(** A list sorted for a relation that is transitive on its elements is
    sorted pairwise. *)
Lemma Sorted_strongly {A : Type} (R : relation A) (l : list A) :
  (forall x y z, In y l -> R x y -> R y z -> R x z) ->
  Sorted R l -> StronglySorted R l.
Proof.
  intros Htrans Hs. induction Hs as [|a l Hs IH Hhd]; constructor.
  - apply IH. intros x y z Hy. apply Htrans. now right.
  - assert (Hl : StronglySorted R l)
      by (apply IH; intros x y z Hy; apply Htrans; now right).
    destruct Hhd as [|b l Hab]; constructor; [exact Hab|].
    apply StronglySorted_inv in Hl as [_ Hall].
    eapply Forall_impl; [exact Hall|].
    intros c Hbc. apply (Htrans a b c); [right; now left | exact Hab | exact Hbc].
Qed.

Section Orders.
Context `{Engine}.

Lemma antes_listar_spec (a b : Linha) :
  antes_listar a b = true <-> desc_data_id a b.
Proof.
  unfold antes_listar, desc_data_id, dia.
  destruct (sql_cmp_text _ _) eqn:Hc.
  - apply sql_cmp_text_eq in Hc. rewrite Z.leb_le.
    split; [auto | intros [? | [_ ?]]; [discriminate | assumption]].
  - split; [discriminate|]. intros [? | [He _]]; [discriminate|].
    apply sql_cmp_text_eq in He. congruence.
  - split; auto.
Qed.

#[global] Instance ordem_listar_total : Total ordem_listar.
Proof.
  intros a b. unfold ordem_listar, antes_listar.
  rewrite (sql_cmp_text_antisym (sql_date (data (campos b)))).
  destruct (sql_cmp_text _ _); simpl; auto.
  destruct (Z.leb_spec (id b) (id a)), (Z.leb_spec (id a) (id b)); auto; lia.
Qed.

#[global] Instance ordem_listar_trans : Transitive ordem_listar.
Proof.
  intros a b c Hab Hbc. unfold ordem_listar in *.
  apply antes_listar_spec in Hab, Hbc. apply antes_listar_spec.
  unfold desc_data_id in *.
  destruct Hab as [Hab | [Hab Hid1]], Hbc as [Hbc | [Hbc Hid2]].
  - left. eapply sql_cmp_text_gt_trans; eassumption.
  - left. congruence.
  - left. congruence.
  - right. split; [congruence | lia].
Qed.

Lemma antes_total_spec (a b : option string * option spec_float) :
  antes_total a b = true <-> desc_total a b.
Proof.
  unfold antes_total, desc_total.
  destruct (sql_cmp_real _ _); split; congruence.
Qed.

#[global] Instance ordem_total_total : Total ordem_total.
Proof.
  intros a b. unfold ordem_total, antes_total.
  rewrite (sql_cmp_real_antisym (snd a) (snd b)).
  destruct (sql_cmp_real _ _); simpl; auto.
Qed.

End Orders.

(** ** Reading the store *)

Section ReadFacts.
Context `{Engine}.

Lemma onde_spec (data_inicio data_fim : option string) (l : Linha) :
  onde (condicoes data_inicio data_fim) l = no_intervalo data_inicio data_fim l.
Proof.
  unfold condicoes, no_intervalo, limite, dia.
  destruct data_inicio as [[|c p]|], data_fim as [[|c' q]|];
    cbn [Py.truthy app onde conj foldr avalia sql_ge sql_le];
    try reflexivity;
    destruct (sql_date (data (campos l))) as [x|];
    cbn [sql_ge sql_le sql_and]; try reflexivity;
    repeat match goal with
           | |- context [String.leb ?a ?b] => destruct (String.leb a b)
           end; reflexivity.
Qed.

Lemma filter_onde (data_inicio data_fim : option string) (rows : list Linha) :
  filter (fun l => onde (condicoes data_inicio data_fim) l = true) rows
  = filter (fun l => no_intervalo data_inicio data_fim l = true) rows.
Proof. apply list_filter_iff. intros l. now rewrite onde_spec. Qed.

Lemma listar_ordenadas_perm (data_inicio data_fim : option string) (d : Db) :
  listar_ordenadas data_inicio data_fim d
  ≡ₚ filter (fun l => no_intervalo data_inicio data_fim l = true) (transacoes d).
Proof.
  unfold listar_ordenadas. rewrite merge_sort_Permutation. now rewrite filter_onde.
Qed.

Lemma listar_ordenadas_sorted (data_inicio data_fim : option string) (d : Db) :
  StronglySorted desc_data_id (listar_ordenadas data_inicio data_fim d).
Proof.
  unfold listar_ordenadas.
  assert (Hs := StronglySorted_merge_sort ordem_listar
            (filter (fun l => onde (condicoes data_inicio data_fim) l = true)
                    (transacoes d))).
  induction Hs as [|a l Hs IH Hall]; constructor; [exact IH|].
  eapply Forall_impl; [exact Hall|].
  intros b Hab. now apply antes_listar_spec.
Qed.


Lemma quadro_lookup (rows : list Selecao) (i : nat) (q : Quadro) :
  read_sql_query_parse_dates rows !! i = Some q <->
  exists r t, rows !! i = Some r
              /\ to_datetime (map s_data rows) !! i = Some t
              /\ q = quadro_de r t.
Proof.
  unfold read_sql_query_parse_dates. rewrite lookup_zip_with_Some.
  split; intros (r & t & H1 & H2 & H3); exists r, t; unfold quadro_de in *;
    intuition congruence.
Qed.

Lemma quadro_rows (rows : list Selecao) :
  Forall2 (fun q r => q_id q = s_id r /\ q_tipo q = s_tipo r
                      /\ q_valor q = s_valor r
                      /\ q_descricao q = s_descricao r)
          (read_sql_query_parse_dates rows) rows
  /\ map q_data (read_sql_query_parse_dates rows)
     = to_datetime (map s_data rows).
Proof.
  unfold read_sql_query_parse_dates.
  pose proof (to_datetime_length (map s_data rows)) as Hlen.
  rewrite length_map in Hlen.
  generalize dependent (to_datetime (map s_data rows)).
  induction rows as [|r rows IH]; intros ts Hlen; destruct ts as [|t ts];
    try discriminate; cbn [zip_with map].
  - split; [constructor | reflexivity].
  - injection Hlen as Hlen. destruct (IH ts Hlen) as [Hrows Hcol].
    split; [constructor; auto | now rewrite Hcol].
Qed.

End ReadFacts.

(** ** Writing to the store *)

Lemma filter_all {A : Type} (P : A -> Prop) `{forall x, Decision (P x)}
    (l : list A) :
  (forall x, In x l -> P x) -> filter P l = l.
Proof.
  induction l as [|a l IH]; intros Hall; [reflexivity|].
  rewrite filter_cons_True by (apply Hall; now left).
  f_equal. apply IH. intros x Hx. apply Hall. now right.
Qed.

Lemma filter_none {A : Type} (P : A -> Prop) `{forall x, Decision (P x)}
    (l : list A) :
  (forall x, In x l -> ~ P x) -> filter P l = [].
Proof.
  induction l as [|a l IH]; intros Hall; [reflexivity|].
  rewrite filter_cons_False by (apply Hall; now left).
  apply IH. intros x Hx. apply Hall. now right.
Qed.

Lemma In_filter {A : Type} (P : A -> Prop) `{forall x, Decision (P x)}
    (l : list A) (x : A) :
  In x (filter P l) <-> P x /\ In x l.
Proof. rewrite <- !list_elem_of_In. apply list_elem_of_filter. Qed.

Lemma length_filter_map {A B : Type} (f : A -> B) (b : B)
    `{EqDecision B} (l : list A) :
  length (filter (fun x => f x = b) l)
  = length (filter (fun y => y = b) (map f l)).
Proof.
  induction l as [|a l IH]; [reflexivity|]. cbn [map].
  destruct (decide (f a = b)) as [Heq|Hne].
  - rewrite !filter_cons_True by assumption. cbn [length]. now rewrite IH.
  - rewrite !filter_cons_False by assumption. exact IH.
Qed.

Lemma lookup_map {A B : Type} (f : A -> B) (l : list A) (i : nat) (x : A) :
  l !! i = Some x -> map f l !! i = Some (f x).
Proof.
  revert i. induction l as [|a l IH]; intros [|i] Hx; try discriminate;
    cbn in Hx |- *; [now injection Hx as -> | now apply IH].
Qed.

Lemma lookup_map_inv {A B : Type} (f : A -> B) (l : list A) (i : nat) (y : B) :
  map f l !! i = Some y -> exists x, l !! i = Some x /\ y = f x.
Proof.
  revert i. induction l as [|a l IH]; intros [|i] Hy; try discriminate;
    cbn in Hy |- *.
  - injection Hy as <-. eauto.
  - now apply IH.
Qed.

Lemma max_id_bound (rows : list Linha) (l : Linha) :
  In l rows -> id l <= max_id rows.
Proof.
  induction rows as [|a rows IH]; intros Hin; [destruct Hin|].
  cbn [max_id foldr]. destruct Hin as [-> | Hin]; [lia|].
  specialize (IH Hin). unfold max_id in IH. lia.
Qed.

Lemma next_id_fresh (d : Db) (l : Linha) :
  In l (transacoes d) -> id l < next_id d.
Proof. intros Hin. apply max_id_bound in Hin. unfold next_id. lia. Qed.

Lemma SFcompare_refl (x : spec_float) :
  x <> S754_nan -> SFcompare x x = Some Eq.
Proof.
  destruct x as [s|s| |s m e]; intros Hx; simpl; try congruence;
    try (destruct s; reflexivity).
  rewrite Z.compare_refl.
  change (Pos.compare_cont Eq m m) with (Pos.compare m m).
  rewrite Pos.compare_refl. now destruct s.
Qed.

(** The stored float is the given one as a number, and the given one
    itself unless that is the negative zero. *)
Lemma armazena_compare (v : spec_float) :
  v <> S754_nan -> SFcompare (armazena v) v = Some Eq.
Proof.
  intros Hv. destruct v as [s|s| |s m e]; cbn [armazena];
    try (apply SFcompare_refl; congruence).
  now destruct s.
Qed.

Lemma armazena_exact (v : spec_float) :
  v <> S754_zero true -> armazena v = v.
Proof. destruct v as [[]|s| |s m e]; intros Hv; congruence || reflexivity. Qed.

Lemma armazena_nan (v : spec_float) :
  v <> S754_nan -> armazena v <> S754_nan.
Proof. destruct v; cbn [armazena]; congruence. Qed.

Lemma inserir_valido (r : Registro) (d : Db) :
  registro_valido r ->
  inserir r d
  = (Return tt,
     {| transacoes := transacoes d ++ [linha_de (next_id d) r];
        sqlite_sequence := next_id d |}).
Proof.
  intros [Htipo Hnan]. unfold inserir.
  assert (is_nan (valor r) = false) as ->
    by (destruct (valor r); [reflexivity..|congruence|reflexivity]).
  assert (check_tipo (tipo r) = true) as ->
    by (unfold check_tipo; destruct Htipo as [-> | ->]; reflexivity).
  reflexivity.
Qed.

Section ListFacts.
Context `{Engine}.

Lemma quadro_ids (rows : list Selecao) :
  map q_id (read_sql_query_parse_dates rows) = map s_id rows.
Proof.
  destruct (quadro_rows rows) as [Hrows _].
  generalize dependent (read_sql_query_parse_dates rows).
  intros qs Hrows.
  induction Hrows as [|q r qs rs (Hid & _) _ IH]; [reflexivity|].
  cbn [map]. now rewrite Hid, IH.
Qed.

Lemma listar_ids (data_inicio data_fim : option string) (d : Db) :
  map q_id (listar_transacoes data_inicio data_fim d)
  = map id (listar_ordenadas data_inicio data_fim d).
Proof.
  unfold listar_transacoes, listar_consulta.
  now rewrite quadro_ids, map_map.
Qed.

Lemma listar_ids_incl (data_inicio data_fim : option string) (d : Db) (n : Z) :
  In n (map q_id (listar_transacoes data_inicio data_fim d)) ->
  In n (map id (transacoes d)).
Proof.
  rewrite listar_ids. intros Hin.
  apply in_map_iff in Hin as (l & <- & Hl). apply in_map.
  eapply Permutation_in in Hl; [|apply listar_ordenadas_perm].
  now apply In_filter in Hl as [_ Hl].
Qed.

Lemma listar_sem_filtro (d : Db) :
  listar_ordenadas None None d ≡ₚ transacoes d.
Proof.
  rewrite listar_ordenadas_perm. now rewrite filter_all.
Qed.

End ListFacts.

(** ** The claims about the store *)

Section StoreClaims.
Context `{Engine}.

(** C8. [listar_transacoes] returns the rows within the range, each once,
    in the order of date descending and then id descending, with an
    absent description shown as the empty string (and the dates as the
    frame's converted column). *)
Theorem C8_listar_transacoes_ordered (data_inicio data_fim : option string)
    (d : Db) :
  exists rows : list Linha,
    rows ≡ₚ filter (fun l => no_intervalo data_inicio data_fim l = true)
                   (transacoes d)
    /\ StronglySorted desc_data_id rows
    /\ Forall2 (fun q l =>
                  q_id q = id l /\ q_tipo q = tipo (campos l)
                  /\ q_valor q = valor (campos l)
                  /\ q_descricao q = match descricao (campos l) with
                                     | Some t => t
                                     | None => ""
                                     end)
               (listar_transacoes data_inicio data_fim d) rows
    /\ map q_data (listar_transacoes data_inicio data_fim d)
       = to_datetime (map (fun l => data (campos l)) rows).
Proof.
  exists (listar_ordenadas data_inicio data_fim d).
  split; [apply listar_ordenadas_perm|].
  split; [apply listar_ordenadas_sorted|].
  unfold listar_transacoes, listar_consulta.
  destruct (quadro_rows (map selecao (listar_ordenadas data_inicio data_fim d)))
    as [Hrows Hcol].
  split.
  - generalize dependent (read_sql_query_parse_dates
      (map selecao (listar_ordenadas data_inicio data_fim d))).
    intros qs Hrows _.
    remember (listar_ordenadas data_inicio data_fim d) as rows eqn:Hr.
    clear Hr. revert qs Hrows.
    induction rows as [|l rows IH]; intros qs Hrows; inversion Hrows; subst;
      constructor; [|now apply IH].
    cbn [selecao s_id s_tipo s_valor s_descricao] in *.
    destruct (descricao (campos l)); intuition.
  - now rewrite Hcol, map_map.
Qed.

(** C3. After a valid record is inserted, the unfiltered listing has
    exactly one row with the new identifier, and that row carries the
    record: its kind, its amount as the column holds it (the same number;
    the same float unless the amount is the negative zero, which reads
    back as [0.0]), its description (the empty string when absent) and, in
    the date column, the conversion of its date text. *)
Theorem C3_insert_then_list (r : Registro) (d : Db) :
  registro_valido r ->
  let n := next_id d in
  let d' := snd (inserir r d) in
  fst (inserir r d) = Return tt
  /\ length (filter (fun q => q_id q = n) (listar_transacoes None None d')) = 1%nat
  /\ (forall i q,
        listar_transacoes None None d' !! i = Some q -> q_id q = n ->
        q_tipo q = tipo r
        /\ q_valor q = armazena (valor r)
        /\ SFcompare (q_valor q) (valor r) = Some Eq
        /\ (valor r <> S754_zero true -> q_valor q = valor r)
        /\ q_descricao q = match descricao r with
                           | Some t => t
                           | None => ""
                           end
        /\ map s_data (listar_consulta None None d') !! i = Some (data r)
        /\ to_datetime (map s_data (listar_consulta None None d')) !! i
           = Some (q_data q))
  /\ (forall l, In l (transacoes d) -> id l < n).
Proof.
  intros Hval n d'. subst d'. rewrite (inserir_valido r d Hval). cbn [fst snd].
  fold n. set (novo := linha_de n r).
  set (d' := {| transacoes := transacoes d ++ [novo]; sqlite_sequence := n |}).
  assert (Hperm : listar_ordenadas None None d' ≡ₚ transacoes d ++ [novo])
    by apply listar_sem_filtro.
  assert (Hfresh : forall l, In l (transacoes d) -> id l < n)
    by apply next_id_fresh.
  split; [reflexivity|]. split; [|split; [|exact Hfresh]].
  - rewrite length_filter_map, listar_ids.
    rewrite (Permutation_length
               (filter_Permutation _ _ _ (Permutation_map id Hperm))).
    rewrite map_app, filter_app. cbn [map].
    rewrite filter_none.
    + rewrite filter_cons_True by reflexivity. reflexivity.
    + intros x Hx Heq. apply in_map_iff in Hx as (l & <- & Hl).
      specialize (Hfresh l Hl). lia.
  - intros i q Hq Hid.
    apply quadro_lookup in Hq as (s & t & Hs & Ht & ->).
    cbn [quadro_de q_id q_tipo q_valor q_descricao q_data] in *.
    unfold listar_consulta in Hs.
    assert (Hl : exists l, listar_ordenadas None None d' !! i = Some l
                           /\ s = selecao l)
      by (now apply lookup_map_inv).
    destruct Hl as (l & Hl & ->).
    cbn [selecao s_id s_tipo s_valor s_descricao] in *.
    assert (Hin : In l (transacoes d ++ [novo])).
    { eapply Permutation_in; [exact Hperm|].
      apply list_elem_of_In. eapply list_elem_of_lookup_2. exact Hl. }
    apply in_app_iff in Hin as [Hold | [<- | []]].
    + specialize (Hfresh l Hold). lia.
    + cbn [novo linha_de campos tipo valor descricao data].
      destruct Hval as [_ Hnan].
      split; [reflexivity|]. split; [reflexivity|].
      split; [now apply armazena_compare|].
      split; [apply armazena_exact|]. split; [reflexivity|].
      split; [|exact Ht].
      unfold listar_consulta.
      rewrite map_map.
      apply (lookup_map (fun x => s_data (selecao x)) _ _ _ Hl).
Qed.

End StoreClaims.

(** ** Grouping and totals *)

Lemma map_is_fmap {A B : Type} (f : A -> B) (l : list A) : map f l = f <$> l.
Proof. reflexivity. Qed.

Lemma group_by_keys {K A : Type} `{EqDecision K} (key : A -> K)
    (rows : list A) :
  map fst (group_by key rows) = remove_dups (map key rows).
Proof. unfold group_by. rewrite map_map. cbn [fst]. apply map_id. Qed.

Lemma group_by_In {K A : Type} `{EqDecision K} (key : A -> K)
    (rows : list A) (k : K) (g : list A) :
  In (k, g) (group_by key rows) <->
  In k (map key rows) /\ g = filter (fun r => key r = k) rows.
Proof.
  unfold group_by. rewrite in_map_iff. split.
  - intros (k' & Heq & Hk). injection Heq as -> <-. split; [|reflexivity].
    rewrite <- list_elem_of_In in Hk |- *.
    now rewrite elem_of_remove_dups in Hk.
  - intros [Hk ->]. exists k. split; [reflexivity|].
    rewrite <- list_elem_of_In in Hk |- *.
    now rewrite elem_of_remove_dups.
Qed.

Lemma filter_nil_iff {K A : Type} `{EqDecision K} (key : A -> K)
    (rows : list A) (k : K) :
  filter (fun r => key r = k) rows = [] <-> ~ In k (map key rows).
Proof.
  split.
  - intros Hnil Hin. apply in_map_iff in Hin as (r & Hr & Hin).
    assert (Hf : In r (filter (fun r => key r = k) rows))
      by (apply In_filter; auto).
    rewrite Hnil in Hf. destruct Hf.
  - intros Hnot. apply filter_none. intros r Hr Hk. apply Hnot.
    apply in_map_iff. eauto.
Qed.



Lemma registra_outro (l : list (string * option spec_float))
    (m0 : gmap string spec_float) (k : string) :
  ~ In k (map fst l) -> foldl registra m0 l !! k = m0 !! k.
Proof.
  revert m0. induction l as [|[t v] l IH]; intros m0 Hk; [reflexivity|].
  cbn [foldl registra]. rewrite IH by (intros Hin; apply Hk; now right).
  apply lookup_insert_ne. intros ->. apply Hk. now left.
Qed.

Lemma registra_chave (l : list (string * option spec_float))
    (m0 : gmap string spec_float) (k : string) (v : option spec_float) :
  List.NoDup (map fst l) -> In (k, v) l ->
  foldl registra m0 l !! k = Some (ou_zero v).
Proof.
  revert m0. induction l as [|[t u] l IH]; intros m0 Hnd Hin; [destruct Hin|].
  cbn [map fst] in Hnd. apply List.NoDup_cons_iff in Hnd as [Hfresh Hnd].
  cbn [foldl registra]. destruct Hin as [Heq | Hin].
  - injection Heq as -> ->. rewrite registra_outro by exact Hfresh.
    apply lookup_insert_eq.
  - now apply IH.
Qed.

Lemma ou_zero_value (s : spec_float) :
  s <> S754_nan -> SFcompare (ou_zero (Some s)) s = Some Eq.
Proof.
  intros Hs. destruct s as [sg|sg| |sg m e]; try congruence;
    cbn [ou_zero]; try (apply SFcompare_refl; congruence).
  reflexivity.
Qed.

Section Totals.
Context `{Engine}.

Lemma conj_onde (cs : list condicao) (l : Linha) :
  onde cs l = bool_decide (conj cs l = Some true).
Proof. destruct cs; reflexivity. Qed.

Lemma onde_faturamento_spec (data_inicio data_fim : option string) (l : Linha) :
  onde_faturamento (condicoes data_inicio data_fim) l = true <->
  tipo (campos l) = "faturamento" /\ no_intervalo data_inicio data_fim l = true.
Proof.
  unfold onde_faturamento. rewrite <- onde_spec, conj_onde.
  rewrite !bool_decide_eq_true.
  destruct (String.eqb_spec (tipo (campos l)) "faturamento") as [Heq|Hne];
    destruct (conj _ l) as [[]|]; cbn [sql_and]; split;
    try intuition congruence.
Qed.


Lemma visita_nil (q : consulta) : visita q [] = [].
Proof. apply Permutation_nil. symmetry. apply visita_perm. Qed.

Lemma visita_nil_iff (q : consulta) (rows : list Linha) :
  visita q rows = [] <-> rows = [].
Proof.
  split.
  - intros Hv. apply Permutation_nil. rewrite <- Hv. apply visita_perm.
  - intros ->. apply visita_nil.
Qed.

Lemma visita_filter_nil (q : consulta) (P : Linha -> Prop)
    `{forall l, Decision (P l)} (rows : list Linha) :
  filter P (visita q rows) = [] <-> filter P rows = [].
Proof.
  split; intros Hnil; apply Permutation_nil; rewrite <- Hnil.
  - apply filter_Permutation, visita_perm.
  - symmetry. apply filter_Permutation, visita_perm.
Qed.

Lemma totais_consulta_keys (data_inicio data_fim : option string) (d : Db) :
  map fst (totais_consulta data_inicio data_fim d)
  = remove_dups
      (map (fun l => tipo (campos l))
           (visita ConsultaTotais
              (filter (fun l => no_intervalo data_inicio data_fim l = true)
                      (transacoes d)))).
Proof.
  unfold totais_consulta. rewrite filter_onde, map_map.
  rewrite <- group_by_keys. apply map_ext. now intros [t g].
Qed.

(** The entry of a kind in the mapping of [totais]. *)
Lemma totais_lookup (data_inicio data_fim : option string) (d : Db)
    (k : string) :
  totais data_inicio data_fim d !! k
  = match filter (fun l => tipo (campos l) = k)
            (visita ConsultaTotais
               (filter (fun l => no_intervalo data_inicio data_fim l = true)
                       (transacoes d))) with
    | [] => None
    | g => Some (ou_zero (sql_sum (map (fun l => valor (campos l)) g)))
    end.
Proof.
  unfold totais.
  set (rows := visita ConsultaTotais
                 (filter (fun l => no_intervalo data_inicio data_fim l = true)
                         (transacoes d))).
  destruct (filter (fun l => tipo (campos l) = k) rows) as [|a g] eqn:Hg.
  - rewrite registra_outro; [apply lookup_empty|].
    rewrite totais_consulta_keys, <- list_elem_of_In, elem_of_remove_dups,
      list_elem_of_In.
    now apply filter_nil_iff.
  - apply registra_chave.
    + rewrite totais_consulta_keys. apply NoDup_ListNoDup, NoDup_remove_dups.
    + unfold totais_consulta. rewrite filter_onde. fold rows.
      apply in_map_iff. exists (k, a :: g). split; [reflexivity|].
      apply group_by_In. split; [|now rewrite Hg].
      assert (Ha : In a (filter (fun l => tipo (campos l) = k) rows))
        by (rewrite Hg; now left).
      apply In_filter in Ha as [<- Ha].
      exact (in_map (fun l => tipo (campos l)) _ _ Ha).
Qed.

(** The rows of the revenue table's query, said with the range. *)
Lemma filter_onde_faturamento (data_inicio data_fim : option string)
    (rows : list Linha) :
  filter (fun l => onde_faturamento (condicoes data_inicio data_fim) l = true)
         rows
  = filter (fun l => tipo (campos l) = "faturamento"
                     /\ no_intervalo data_inicio data_fim l = true) rows.
Proof. apply list_filter_iff. intros l. apply onde_faturamento_spec. Qed.

End Totals.


Section Cenario.
Context `{Engine}.

(** On the scenario the two revenue rows are visited in one order or the
    other, and 100.0 and 50.0 add up to 150.0 either way. *)
Lemma faturamento_cenario :
  faturamento_por_descricao None None db_cenario = [(Some "A", Some f_150)].
Proof.
  unfold faturamento_por_descricao.
  set (rows := filter _ (transacoes db_cenario)).
  assert (Hrows : exists a b, rows = [a; b]
            /\ (forall v, v = [a; b] \/ v = [b; a] ->
                 merge_sort ordem_total
                   (map (fun '(k, g) =>
                           (k, sql_sum (map (fun l => valor (campos l)) g)))
                        (group_by (fun l => descricao (campos l)) v))
                 = [(Some "A", Some f_150)])).
  { eexists _, _. split; [vm_compute; reflexivity|].
    intros v [-> | ->]; vm_compute; reflexivity. }
  destruct Hrows as (a & b & Hab & Hv). apply Hv.
  apply Permutation_length_2_inv. rewrite <- Hab. symmetry. apply visita_perm.
Qed.

End Cenario.

Section StoreClaims2.
Context `{Engine}.

(** C6 (as amended). For an identifier that fits 64 bits, [deletar]
    answers whether a row had it, and afterwards no row has it while
    every other row stays; on such an identifier that no row has it
    answers [false] and leaves the store as it was, without raising, as
    on 999999; on the identifier of a row just inserted, which fits 64
    bits as every rowid of SQLite does, it answers [true] and the row is
    gone from every listing. For an identifier outside 64 bits it raises
    [OverflowError] and leaves the store as it was. *)
Theorem C6_deletar (reg_id : Z) (d : Db) :
  let d' := snd (deletar reg_id d) in
  (int64 reg_id = true ->
     (fst (deletar reg_id d) = Return true
        <-> In reg_id (map id (transacoes d)))
     /\ (fst (deletar reg_id d) = Return false
          <-> ~ In reg_id (map id (transacoes d)))
     /\ (forall l, In l (transacoes d')
                   <-> In l (transacoes d) /\ id l <> reg_id)
     /\ (forall data_inicio data_fim,
          ~ In reg_id (map q_id (listar_transacoes data_inicio data_fim d')))
     /\ (~ In reg_id (map id (transacoes d))
         -> deletar reg_id d = (Return false, d)))
  /\ (int64 reg_id = false -> deletar reg_id d = (Raise OverflowError, d))
  /\ (forall r, registro_valido r -> int64 (next_id d) = true ->
        deletar (next_id d) (snd (inserir r d))
        = (Return true, {| transacoes := transacoes d;
                           sqlite_sequence := next_id d |}))
  /\ deletar 999999 db_cenario = (Return false, db_cenario).
Proof.
  intros d'. subst d'. split; [|split; [|split]].
  - intros Hin64. unfold deletar. rewrite Hin64. cbn [fst snd transacoes].
    assert (Hrow : (0 < length (filter (fun l => id l = reg_id) (transacoes d)))%nat
                   <-> In reg_id (map id (transacoes d))).
    { split.
      - intros Hlen.
        destruct (filter (fun l => id l = reg_id) (transacoes d))
          as [|l ls] eqn:Hf; [cbn in Hlen; lia|].
        assert (Hl : In l (filter (fun l => id l = reg_id) (transacoes d)))
          by (rewrite Hf; now left).
        apply In_filter in Hl as [<- Hl]. now apply in_map.
      - intros Hin. apply in_map_iff in Hin as (l & Hid & Hl).
        assert (Hf : In l (filter (fun l => id l = reg_id) (transacoes d)))
          by (apply In_filter; auto).
        destruct (filter _ _); [destruct Hf | cbn; lia]. }
    split; [|split; [|split; [|split]]].
    + rewrite <- Hrow. split.
      * intros Hret. injection Hret as Hret.
        now apply bool_decide_eq_true in Hret.
      * intros Hlen. now rewrite bool_decide_eq_true_2.
    + rewrite <- Hrow. split.
      * intros Hret. injection Hret as Hret.
        now apply bool_decide_eq_false in Hret.
      * intros Hlen. now rewrite bool_decide_eq_false_2.
    + intros l. rewrite In_filter. tauto.
    + intros data_inicio data_fim Hin. apply listar_ids_incl in Hin.
      cbn [transacoes] in Hin. apply in_map_iff in Hin as (l & Hid & Hl).
      apply In_filter in Hl as [Hne _]. contradiction.
    + intros Hnot. rewrite filter_none, filter_all.
      * rewrite bool_decide_eq_false_2 by (cbn; lia). now destruct d.
      * intros l Hl Heq. apply Hnot. subst reg_id. now apply in_map.
      * intros l Hl Heq. apply Hnot. subst reg_id. now apply in_map.
  - intros Hout. unfold deletar. now rewrite Hout.
  - intros r Hval Hin64. rewrite (inserir_valido r d Hval). unfold deletar.
    rewrite Hin64. cbn [snd transacoes sqlite_sequence].
    rewrite !filter_app.
    rewrite (filter_none (fun l => id l = next_id d) (transacoes d)).
    2:{ intros l Hl Heq. apply next_id_fresh in Hl. lia. }
    rewrite (filter_all (fun l => id l <> next_id d) (transacoes d)).
    2:{ intros l Hl Heq. apply next_id_fresh in Hl. lia. }
    rewrite filter_cons_True by reflexivity.
    rewrite filter_cons_False by (cbn; intros Hne; now apply Hne).
    cbn. now rewrite app_nil_r.
  - vm_compute. reflexivity.
Qed.

(** C7 (as amended). In the mapping that [totais] returns, a kind with no
    row in the range is absent, and a kind with rows in the range is
    mapped to the [SUM] of their amounts, added one after the other in
    the order in which the query visits them, as [v or 0.0] leaves it:
    [0.0] when that sum is not a number, and the sum, as a number,
    otherwise. *)
Theorem C7_totais (data_inicio data_fim : option string) (d : Db) (k : string) :
  let grupo :=
    filter (fun l => tipo (campos l) = k)
      (filter (fun l => no_intervalo data_inicio data_fim l = true)
              (transacoes d)) in
  let ordem :=
    filter (fun l => tipo (campos l) = k)
      (visita ConsultaTotais
         (filter (fun l => no_intervalo data_inicio data_fim l = true)
                 (transacoes d))) in
  let valores := map (fun l => valor (campos l)) ordem in
  ordem ≡ₚ grupo
  /\ (grupo = [] -> totais data_inicio data_fim d !! k = None)
  /\ (grupo <> [] ->
      totais data_inicio data_fim d !! k = Some (ou_zero (sql_sum valores))
      /\ (soma valores = S754_nan ->
          totais data_inicio data_fim d !! k = Some (S754_zero false))
      /\ (soma valores <> S754_nan ->
          exists v, totais data_inicio data_fim d !! k = Some v
                    /\ SFcompare v (soma valores) = Some Eq)).
Proof.
  intros grupo ordem valores.
  assert (Hperm : ordem ≡ₚ grupo) by apply filter_Permutation, visita_perm.
  split; [exact Hperm|].
  rewrite totais_lookup. fold ordem. split.
  - intros Hnil. rewrite Hnil in Hperm. apply Permutation_nil_r in Hperm.
    now rewrite Hperm.
  - intros Hne.
    destruct ordem as [|a g] eqn:Ho.
    { apply Permutation_nil in Hperm. contradiction. }
    fold valores. split; [reflexivity|].
    unfold sql_sum. subst valores. cbn [map].
    set (vs := valor (campos a) :: map (fun l => valor (campos l)) g).
    split.
    + intros Hnan. now rewrite Hnan.
    + intros Hnum. eexists. split; [reflexivity|].
      destruct (soma vs) eqn:Hs; cbn [is_nan]; try congruence;
        apply ou_zero_value; congruence.
Qed.

(** C9. [faturamento_por_descricao] returns one row per description among
    the revenue rows in the range, with the [SUM] of their amounts, added
    one after the other in the order in which the query visits them, in
    the order of total descending; on the scenario it returns the single
    row ("A", 150.0). *)
Theorem C9_faturamento_por_descricao (data_inicio data_fim : option string)
    (d : Db) :
  let rows :=
    filter (fun l => tipo (campos l) = "faturamento"
                     /\ no_intervalo data_inicio data_fim l = true)
           (transacoes d) in
  let ordem k :=
    filter (fun l => descricao (campos l) = k)
           (visita ConsultaFaturamento rows) in
  let res := faturamento_por_descricao data_inicio data_fim d in
  List.NoDup (map fst res)
  /\ (forall k, ordem k ≡ₚ filter (fun l => descricao (campos l) = k) rows)
  /\ (forall k t,
        In (k, t) res <->
        In k (map (fun l => descricao (campos l)) rows)
        /\ t = sql_sum (map (fun l => valor (campos l)) (ordem k)))
  /\ StronglySorted desc_total res
  /\ faturamento_por_descricao None None db_cenario = [(Some "A", Some f_150)].
Proof.
  intros rows ordem res.
  assert (Hrows :
    filter (fun l => onde_faturamento (condicoes data_inicio data_fim) l = true)
           (transacoes d) = rows) by apply filter_onde_faturamento.
  set (vis := visita ConsultaFaturamento rows).
  set (grupos := map (fun '(k, g) => (k, sql_sum (map (fun l => valor (campos l)) g)))
                     (group_by (fun l => descricao (campos l)) vis)).
  assert (Hperm : res ≡ₚ grupos).
  { subst res grupos vis. unfold faturamento_por_descricao. rewrite Hrows.
    apply merge_sort_Permutation. }
  assert (Hkeys : map fst grupos
                  = remove_dups (map (fun l => descricao (campos l)) vis)).
  { subst grupos. rewrite map_map, <- group_by_keys. apply map_ext.
    now intros [k g]. }
  assert (Hvis : forall k, In k (map (fun l => descricao (campos l)) vis)
                           <-> In k (map (fun l => descricao (campos l)) rows)).
  { intros k. split; apply Permutation_in, Permutation_map;
      [|symmetry]; apply visita_perm. }
  assert (Hin : forall k t,
    In (k, t) res <->
    In k (map (fun l => descricao (campos l)) rows)
    /\ t = sql_sum (map (fun l => valor (campos l)) (ordem k))).
  { intros k t. rewrite <- Hvis. split.
    - intros Hin. eapply Permutation_in in Hin; [|exact Hperm].
      subst grupos. apply in_map_iff in Hin as ([k' g] & Heq & Hg).
      injection Heq as -> <-. apply group_by_In in Hg as [Hk ->]. auto.
    - intros [Hk ->]. eapply Permutation_in; [symmetry; exact Hperm|].
      subst grupos. apply in_map_iff.
      exists (k, ordem k).
      split; [reflexivity|]. apply group_by_In. auto. }
  split; [|split; [|split; [exact Hin|split]]].
  - eapply Permutation_NoDup; [apply Permutation_map; symmetry; exact Hperm|].
    rewrite Hkeys. apply NoDup_ListNoDup, NoDup_remove_dups.
  - intros k. apply filter_Permutation, visita_perm.
  - apply Sorted_strongly.
    + intros x [k t] z Hy Hxy Hyz. apply Hin in Hy as [_ ->].
      unfold desc_total in *. cbn [snd] in *.
      eapply sql_cmp_real_ge_trans; [apply sql_sum_not_nan | eassumption..].
    + subst res. unfold faturamento_por_descricao.
      match goal with
      | |- Sorted _ (merge_sort _ ?l) =>
          assert (Hs := Sorted_merge_sort ordem_total l)
      end.
      induction Hs as [|a l Hs IH Hhd]; constructor; [exact IH|].
      destruct Hhd; constructor. now apply antes_total_spec.
  - apply faturamento_cenario.
Qed.

(** C10. In the three reads, the empty string as a bound is the same as no
    bound: it adds no condition. *)
Theorem C10_empty_bound_is_no_bound (d : Db) (b : option string) :
  totais (Some "") b d = totais None b d
  /\ totais b (Some "") d = totais b None d
  /\ listar_transacoes (Some "") b d = listar_transacoes None b d
  /\ listar_transacoes b (Some "") d = listar_transacoes b None d
  /\ faturamento_por_descricao (Some "") b d = faturamento_por_descricao None b d
  /\ faturamento_por_descricao b (Some "") d = faturamento_por_descricao b None d
  /\ condicoes (Some "") (Some "") = [].
Proof.
  assert (Hi : condicoes (Some "") b = condicoes None b) by reflexivity.
  assert (Hf : condicoes b (Some "") = condicoes b None) by reflexivity.
  unfold totais, totais_consulta, listar_transacoes, listar_consulta,
    listar_ordenadas, faturamento_por_descricao.
  rewrite Hi, Hf. repeat split; reflexivity.
Qed.

End StoreClaims2.

(** ** The claims on the scenario *)


Lemma C3_insert_then_list_witness :
  fst (inserir registro_exemplo db_cenario) = Return tt
  /\ length (filter (fun q => q_id q = next_id db_cenario)
               (listar_transacoes None None
                  (snd (inserir registro_exemplo db_cenario)))) = 1%nat
  /\ map q_valor
       (listar_transacoes None None
          (snd (inserir registro_zero_negativo db_vazio)))
     = [S754_zero false].
Proof.
  assert (Hval : registro_valido registro_exemplo).
  { split; [right; reflexivity | discriminate]. }
  destruct (C3_insert_then_list registro_exemplo db_cenario Hval)
    as (Hret & Honce & _).
  split; [exact Hret | split; [exact Honce | vm_compute; reflexivity]].
Defined.

Lemma C6_deletar_witness :
  deletar (next_id db_cenario) (snd (inserir registro_exemplo db_cenario))
  = (Return true, {| transacoes := transacoes db_cenario;
                     sqlite_sequence := next_id db_cenario |})
  /\ deletar 999999 db_cenario = (Return false, db_cenario)
  /\ deletar (- 2 ^ 63 - 1) db_cenario = (Raise OverflowError, db_cenario).
Proof.
  destruct (C6_deletar 999999 db_cenario) as ((_ & _ & _ & _ & Hnone) & _);
    [reflexivity|].
  destruct (C6_deletar (- 2 ^ 63 - 1) db_cenario) as (_ & Hout & Hfresh & _).
  split; [|split].
  - apply Hfresh; [|reflexivity]. split; [right; reflexivity | discriminate].
  - apply Hnone. vm_compute. intuition discriminate.
  - apply Hout. reflexivity.
Defined.

(** C6 as stated fails: no row of the scenario has the identifier 2^63,
    yet [deletar] does not answer [false] on it: it raises. *)
Lemma C6_counterexample :
  filter (fun l => id l = 2 ^ 63) (transacoes db_cenario) = []
  /\ deletar (2 ^ 63) db_cenario = (Raise OverflowError, db_cenario).
Proof. split; vm_compute; reflexivity. Qed.

Lemma C7_totais_witness :
  totais (Some "2024-01-02") None db_cenario !! "despesa" = None
  /\ totais (Some "2024-01-02") None db_cenario !! "faturamento"
     = Some (Py.float_of_int 50)
  /\ totais None None db_cenario !! "faturamento" = Some f_150
  /\ totais None None db_infinitos !! "despesa" = Some (S754_zero false).
Proof.
  split; [|split; [|split]].
  - apply (proj1 (proj2 (C7_totais (Some "2024-01-02") None db_cenario
                           "despesa"))).
    vm_compute. reflexivity.
  - destruct (proj2 (proj2 (C7_totais (Some "2024-01-02") None db_cenario
                              "faturamento")))
      as [Hsum _]; [vm_compute; discriminate|].
    rewrite Hsum. vm_compute. reflexivity.
  - destruct (proj2 (proj2 (C7_totais None None db_cenario "faturamento")))
      as [Hsum _]; [vm_compute; discriminate|].
    rewrite Hsum. vm_compute. reflexivity.
  - destruct (proj2 (proj2 (C7_totais None None db_infinitos "despesa")))
      as (_ & Hnan & _); [vm_compute; discriminate|].
    apply Hnan. vm_compute. reflexivity.
Defined.

(** C7 as stated fails: the two expenses of the store are [+inf] and
    [-inf], whose sum in either order is not a number, and the entry of
    "despesa" is [0.0]. *)
Lemma C7_counterexample :
  map (fun l => (tipo (campos l), valor (campos l))) (transacoes db_infinitos)
  = [("despesa", S754_infinity false); ("despesa", S754_infinity true)]
  /\ soma [S754_infinity false; S754_infinity true] = S754_nan
  /\ soma [S754_infinity true; S754_infinity false] = S754_nan
  /\ totais None None db_infinitos !! "despesa" = Some (S754_zero false).
Proof. repeat split; vm_compute; reflexivity. Qed.

(** * Further properties *)

(** ** What [float] returns *)

Lemma shr_1_nonneg (mrs : shr_record) : 0 <= shr_m mrs -> 0 <= shr_m (shr_1 mrs).
Proof.
  destruct mrs as [m r s]. cbn [shr_m]. intros Hm.
  destruct m as [|[p|p|]|p]; cbn; lia.
Qed.

Lemma iter_pos_shr_1_nonneg (p : positive) (mrs : shr_record) :
  0 <= shr_m mrs -> 0 <= shr_m (SpecFloat.iter_pos shr_1 p mrs).
Proof.
  revert mrs. induction p as [p IH|p IH|]; intros mrs Hm; cbn [SpecFloat.iter_pos];
    auto using shr_1_nonneg.
Qed.

Lemma shr_fexp_nonneg (m e : Z) (l : location) :
  0 <= m -> 0 <= shr_m (fst (shr_fexp Py.prec Py.emax m e l)).
Proof.
  intros Hm. unfold shr_fexp, shr.
  assert (H0 : 0 <= shr_m (shr_record_of_loc m l))
    by (destruct l as [|[]]; exact Hm).
  destruct (_ - e); cbn [fst]; auto using iter_pos_shr_1_nonneg.
Qed.

Lemma binary_round_aux_nonneg (m e : Z) (l : location) :
  0 <= m -> nao_negativo (binary_round_aux Py.prec Py.emax false m e l) = true.
Proof.
  intros Hm. unfold binary_round_aux.
  pose proof (shr_fexp_nonneg m e l Hm) as H1.
  destruct (shr_fexp Py.prec Py.emax m e l) as [mrs' e']. cbn [fst] in H1.
  assert (H2 : 0 <= round_nearest_even (shr_m mrs') (loc_of_shr_record mrs')).
  { unfold round_nearest_even.
    destruct (loc_of_shr_record mrs') as [|[]]; try lia.
    destruct (Z.even (shr_m mrs')); lia. }
  pose proof (shr_fexp_nonneg _ e' loc_Exact H2) as H3.
  destruct (shr_fexp Py.prec Py.emax _ e' loc_Exact) as [mrs'' e''].
  cbn [fst] in H3.
  destruct (shr_m mrs'') as [|p|p]; [reflexivity | | lia].
  destruct (e'' <=? _); reflexivity.
Qed.

Lemma float_of_int_nonneg (n : Z) : nao_negativo (Py.float_of_int n) = true.
Proof.
  destruct n as [|p|p]; try reflexivity.
  unfold Py.float_of_int, binary_normalize, binary_round.
  destruct (shl_align _ _ _) as [mz ez]. now apply binary_round_aux_nonneg.
Qed.

Lemma float_of_decimal_nonneg (n : Z) (k : nat) :
  nao_negativo (Py.float_of_decimal n k) = true.
Proof.
  destruct n as [|p|p]; try reflexivity.
  unfold Py.float_of_decimal, SFdiv, SFdiv_core_binary. cbn [xorb].
  match goal with
  | |- context [Z.div_eucl ?a ?b] =>
      pose proof (Z_div_mod a b) as Hdiv;
      assert (Ha : 0 <= a); [|destruct (Z.div_eucl a b) as [q r]]
  end.
  - match goal with |- 0 <= match ?s with _ => _ end => destruct s end;
      try lia. apply Z.shiftl_nonneg. lia.
  - apply binary_round_aux_nonneg.
    destruct Hdiv as [Heq Hr]; [lia|]. nia.
Qed.

Lemma float_nonneg (s : string) (v : spec_float) :
  Py.float s = Return v -> nao_negativo v = true.
Proof.
  unfold Py.float.
  destruct (Py.read_digits 0 0 s) as [[ip ni] r].
  destruct r as [|c r'].
  - destruct (0 <? ni)%nat; [|discriminate]. intros Hv. injection Hv as <-.
    apply float_of_int_nonneg.
  - destruct (Ascii.eqb c "."); [|discriminate].
    destruct (Py.read_digits ip 0 r') as [[all nf] r''].
    destruct r''; [|discriminate].
    destruct (0 <? ni + nf)%nat; [|discriminate].
    intros Hv. injection Hv as <-.
    destruct (0 <? nf)%nat;
      [apply float_of_decimal_nonneg | apply float_of_int_nonneg].
Qed.

(** ** More on the parser *)

Lemma strptime_raises (s : string) (e : exn) :
  Py.strptime_dmY s = Raise e -> e = ValueError.
Proof.
  unfold Py.strptime_dmY.
  repeat match goal with
         | |- context [match ?x with _ => _ end] => destruct x
         end; intros He; congruence.
Qed.

(** What [tentar_extrair_comando] does on a match, slot by slot. *)
Lemma tentar_on_match (txt : string) (m : groups) :
  search PADRAO (Py.strip txt) = Some m ->
  exists g1 g2 g3,
    m !! 1%nat = Some g1 /\ m !! 2%nat = Some g2 /\ m !! 3%nat = Some g3
    /\ all_accepted amount_class g1 = true
    /\ (Py.lower g2 = "faturamento" \/ Py.lower g2 = "despesa")
    /\ tentar_extrair_comando txt
       = do v <- Py.float (normalizado g1);
         let '(d, mo, y) := slot_dmy g3 in
         if Py.valid_date y mo d then
           Return (Some {| valor := v;
                           tipo := Py.lower g2;
                           data := Py.isoformat (Py.Date y mo d);
                           descricao :=
                             match m !! 4%nat with
                             | Some g4 =>
                                 if Py.truthy g4 then Some (Py.strip g4)
                                 else None
                             | None => None
                             end |})
         else Raise ValueError.
Proof.
  intros Hs.
  destruct (search_anatomy _ _ Hs)
    as (_ & (g1 & H1 & Hg1 & _) & (g2 & H2 & Hg2) & (g3 & H3 & Hslot) & _).
  exists g1, g2, g3. repeat split; try assumption.
  rewrite (tentar_match _ _ _ _ _ Hs H1 H2 H3).
  destruct (Py.float (normalizado g1)); cbn [bind]; [|reflexivity].
  rewrite (strptime_slot _ Hslot).
  destruct (slot_dmy g3) as [[d mo] y].
  destruct (Py.valid_date y mo d); reflexivity.
Qed.


(** X1. [tentar_extrair_comando] either returns or raises [ValueError]; it
    raises nothing else, whatever the text: the groups it reads always
    took part in the match. *)
Theorem X1_only_ValueError (txt : string) :
  (exists o, tentar_extrair_comando txt = Return o)
  \/ tentar_extrair_comando txt = Raise ValueError.
Proof.
  destruct (search PADRAO (Py.strip txt)) as [m|] eqn:Hs.
  - destruct (tentar_on_match _ _ Hs) as (g1 & g2 & g3 & _ & _ & _ & _ & _ & Heq).
    rewrite Heq.
    destruct (Py.float (normalizado g1)) as [v|e'] eqn:Hf; cbn [bind].
    + destruct (slot_dmy g3) as [[d mo] y].
      destruct (Py.valid_date y mo d); eauto.
    + right. now rewrite (float_raises _ _ Hf).
  - left. exists None. unfold tentar_extrair_comando. now rewrite Hs.
Qed.

(** X2. Every record that [tentar_extrair_comando] returns has an amount
    that is a number and is not negative, and a date that is the ISO
    form of a day of the calendar. *)
Theorem X2_record_well_formed (txt : string) (r : Registro) :
  tentar_extrair_comando txt = Return (Some r) ->
  nao_negativo (valor r) = true
  /\ exists y mo d,
       Py.valid_date y mo d = true
       /\ data r = Py.isoformat (Py.Date y mo d).
Proof.
  intros Hr.
  destruct (search PADRAO (Py.strip txt)) as [m|] eqn:Hs.
  - destruct (tentar_on_match _ _ Hs)
      as (g1 & g2 & g3 & _ & _ & _ & _ & _ & Heq).
    rewrite Heq in Hr.
    destruct (Py.float (normalizado g1)) as [v|e'] eqn:Hf; cbn [bind] in Hr;
      [|discriminate].
    destruct (slot_dmy g3) as [[d mo] y].
    destruct (Py.valid_date y mo d) eqn:Hv; [|discriminate].
    injection Hr as <-. cbn [valor data].
    split; [exact (float_nonneg _ _ Hf)|].
    exists y, mo, d. split; [assumption | reflexivity].
  - unfold tentar_extrair_comando in Hr. rewrite Hs in Hr. discriminate.
Qed.

Lemma X2_record_well_formed_witness :
  nao_negativo f_1234_56 = true
  /\ exists y mo d,
       Py.valid_date y mo d = true
       /\ "2024-05-01" = Py.isoformat (Py.Date y mo d).
Proof.
  apply (X2_record_well_formed
           "registre R$ 1.234,56 de Despesas em 1-5-2024"
           {| data := "2024-05-01"; tipo := "despesa"; valor := f_1234_56;
              descricao := None |}).
  vm_compute. reflexivity.
Defined.




Lemma lstrip_spaces (pre s : string) :
  all_accepted Space pre = true -> Py.lstrip (pre ++ s) = Py.lstrip s.
Proof.
  induction pre as [|c pre IH]; intros Hpre; [reflexivity|].
  cbn [all_accepted accepts] in Hpre. apply andb_true_iff in Hpre as [Hc Hpre].
  rewrite append_cons. cbn [Py.lstrip]. rewrite Hc. now apply IH.
Qed.

Lemma rstrip_spaces (post : string) :
  all_accepted Space post = true -> Py.rstrip post = "".
Proof.
  induction post as [|c post IH]; intros Hpost; [reflexivity|].
  cbn [all_accepted accepts] in Hpost.
  apply andb_true_iff in Hpost as [Hc Hpost].
  cbn [Py.rstrip]. now rewrite (IH Hpost), Hc.
Qed.

Lemma rstrip_app_spaces (s post : string) :
  all_accepted Space post = true -> Py.rstrip (s ++ post) = Py.rstrip s.
Proof.
  intros Hpost. induction s as [|c s IH].
  - rewrite append_nil_l. now apply rstrip_spaces.
  - rewrite append_cons. cbn [Py.rstrip]. now rewrite IH.
Qed.

Lemma strip_padded (pre s post : string) :
  all_accepted Space pre = true -> all_accepted Space post = true ->
  Py.strip (pre ++ s ++ post) = Py.strip s.
Proof.
  intros Hpre Hpost. unfold Py.strip. rewrite (lstrip_spaces _ _ Hpre).
  induction s as [|c s IH].
  - rewrite append_nil_l. cbn [Py.lstrip].
    assert (Hl : forall t, all_accepted Space t = true -> Py.lstrip t = "").
    { induction t as [|x t IHt]; intros Ht; [reflexivity|].
      cbn [all_accepted accepts] in Ht. apply andb_true_iff in Ht as [Hx Ht].
      cbn [Py.lstrip]. rewrite Hx. now apply IHt. }
    now rewrite (Hl _ Hpost).
  - rewrite append_cons. cbn [Py.lstrip]. destruct (Py.isspace c); [exact IH|].
    rewrite <- append_cons. now apply rstrip_app_spaces.
Qed.

(** X4. Whitespace around the sentence does not matter: padding the text
    with characters of [\s] on either side gives the same result. *)
Theorem X4_surrounding_whitespace (pre txt post : string) :
  all_accepted Space pre = true -> all_accepted Space post = true ->
  tentar_extrair_comando (pre ++ txt ++ post) = tentar_extrair_comando txt.
Proof.
  intros Hpre Hpost. unfold tentar_extrair_comando.
  now rewrite (strip_padded _ _ _ Hpre Hpost).
Qed.

Lemma X4_surrounding_whitespace_witness :
  tentar_extrair_comando
    ("  " ++ "registre 150 de faturamento em 12/05/2024" ++ String "010" " ")
  = tentar_extrair_comando "registre 150 de faturamento em 12/05/2024".
Proof.
  apply X4_surrounding_whitespace; vm_compute; reflexivity.
Defined.

(** *** When the amount is a number *)

Lemma amount_char_cases (c : ascii) :
  accepts amount_class c = true ->
  c = "."%char \/ c = ","%char
  \/ (Py.isdigit c = true /\ Ascii.eqb c "." = false
      /\ Ascii.eqb c "," = false).
Proof.
  destruct c as [[] [] [] [] [] [] [] []]; vm_compute; intros Hc;
    first [discriminate Hc | now left | now (right; left)
          | right; right; repeat split].
Qed.

Lemma point_char_cases (c : ascii) :
  accepts (Union Digit (Chr ".")) c = true -> Py.isdigit c = false ->
  c = "."%char.
Proof.
  destruct c as [[] [] [] [] [] [] [] []]; vm_compute; intros Hc Hd;
    first [discriminate Hc | discriminate Hd | reflexivity].
Qed.

Lemma digit_point (c : ascii) :
  Py.isdigit c = true ->
  Ascii.eqb c "." = false /\ Ascii.eqb c "," = false.
Proof.
  destruct c as [[] [] [] [] [] [] [] []]; vm_compute; intros Hc;
    first [discriminate Hc | split; reflexivity].
Qed.

Lemma count_char_hit (c : ascii) (s : string) :
  count_char c (String c s) = S (count_char c s).
Proof. cbn [count_char]. now rewrite Ascii.eqb_refl. Qed.

Lemma count_char_miss (c x : ascii) (s : string) :
  Ascii.eqb x c = false -> count_char c (String x s) = count_char c s.
Proof. intros Hx. cbn [count_char]. now rewrite Hx. Qed.

Lemma has_digit_cons (x : ascii) (s : string) :
  has_digit (String x s) = Py.isdigit x || has_digit s.
Proof. reflexivity. Qed.

Lemma normalizado_counts (g1 : string) :
  all_accepted amount_class g1 = true ->
  count_char "." (normalizado g1) = count_char "," g1
  /\ has_digit (normalizado g1) = has_digit g1.
Proof.
  unfold normalizado. induction g1 as [|c g1 IH]; intros Hg; [now split|].
  cbn [all_accepted] in Hg. apply andb_true_iff in Hg as [Hc Hg].
  destruct (IH Hg) as [IHc IHd].
  destruct (amount_char_cases c Hc) as [-> | [-> | (Hd & Hp & Hv)]].
  - change (Py.replace "." "" (String "." g1)) with (Py.replace "." "" g1).
    rewrite count_char_miss, has_digit_cons by reflexivity.
    now rewrite IHc, IHd.
  - change (Py.replace "," "." (Py.replace "." "" (String "," g1)))
      with (String "." (Py.replace "," "." (Py.replace "." "" g1))).
    rewrite !count_char_hit, !has_digit_cons. now rewrite IHc, IHd.
  - rewrite (replace_cons_ne _ _ _ _ Hp), (replace_cons_ne _ _ _ _ Hv).
    rewrite !has_digit_cons, (count_char_miss _ _ _ Hp),
      (count_char_miss _ _ _ Hv).
    now rewrite IHc, IHd.
Qed.

(** A run of digits ends at the end of the text or at a character that is
    no digit; it keeps the points of the text, and the text has a digit when
    the run or what follows it has one. *)
Lemma read_digits_rest (s : string) (acc : Z) (n : nat) :
  all_accepted (Union Digit (Chr ".")) s = true ->
  exists acc' k r,
    Py.read_digits acc n s = (acc', (n + k)%nat, r)
    /\ all_accepted (Union Digit (Chr ".")) r = true
    /\ (r = "" \/ exists r', r = String "." r')
    /\ count_char "." s = count_char "." r
    /\ has_digit s = (0 <? k)%nat || has_digit r.
Proof.
  revert acc n. induction s as [|c s IH]; intros acc n Hs.
  - exists acc, 0%nat, "". rewrite Nat.add_0_r. cbn. auto.
  - cbn [all_accepted] in Hs. apply andb_true_iff in Hs as [Hc Hs].
    destruct (Py.isdigit c) eqn:Hd.
    + rewrite (read_digits_digit _ _ _ _ Hd).
      destruct (IH (10 * acc + Py.digit_val c) (S n) Hs)
        as (acc' & k & r & Hrd & Hr & Hhead & Hcount & Hdig).
      exists acc', (S k), r. rewrite Hrd.
      replace (n + S k)%nat with (S n + k)%nat by lia.
      repeat split; try assumption.
      * destruct (digit_point c Hd) as [Hp _].
        now rewrite (count_char_miss _ _ _ Hp).
      * rewrite has_digit_cons, Hd. reflexivity.
    + rewrite (read_digits_stop _ _ _ _ Hd).
      pose proof (point_char_cases c Hc Hd) as ->.
      exists acc, 0%nat, (String "." s). rewrite Nat.add_0_r.
      repeat split; try reflexivity.
      * cbn [all_accepted]. now rewrite Hs.
      * right. eauto.
Qed.

Lemma float_criterion (s : string) :
  all_accepted (Union Digit (Chr ".")) s = true ->
  if (count_char "." s <=? 1)%nat && has_digit s
  then exists v, Py.float s = Return v
  else Py.float s = Raise ValueError.
Proof.
  intros Hs. unfold Py.float.
  destruct (read_digits_rest s 0 0 Hs)
    as (ip & ni & r & Hrd & Hr & Hhead & Hcount & Hdig).
  rewrite Hrd, Hcount, Hdig. cbn [Nat.add].
  destruct Hhead as [-> | (r' & ->)].
  - cbn [count_char has_digit Nat.leb andb]. rewrite orb_false_r.
    destruct (0 <? ni)%nat; eauto.
  - change (Ascii.eqb "." ".") with true. cbv iota.
    cbn [all_accepted] in Hr. apply andb_true_iff in Hr as [_ Hr'].
    destruct (read_digits_rest r' ip 0 Hr')
      as (all & nf & r'' & Hrd' & _ & Hhead' & Hcount' & Hdig').
    rewrite Hrd'. cbn [Nat.add].
    rewrite count_char_hit, has_digit_cons, Hcount', Hdig'.
    change (Py.isdigit ".") with false. cbn [orb].
    destruct Hhead' as [-> | (r3 & ->)].
    + cbn [count_char has_digit Nat.leb andb]. rewrite orb_false_r.
      replace (0 <? ni + nf)%nat with ((0 <? ni)%nat || (0 <? nf)%nat).
      * destruct ((0 <? ni)%nat || (0 <? nf)%nat); eauto.
      * destruct ni, nf; reflexivity.
    + rewrite count_char_hit. reflexivity.
Qed.

(** X5. On a match, an amount slot with two commas or more, or with no
    character that [\d] accepts, makes [tentar_extrair_comando] raise
    [ValueError], whatever the date slot; points in the amount slot never
    matter. *)
Theorem X5_amount_must_be_a_number (txt : string) (m : groups) (g1 : string) :
  search PADRAO (Py.strip txt) = Some m ->
  m !! 1%nat = Some g1 ->
  (count_char "," g1 <=? 1)%nat && has_digit g1 = false ->
  tentar_extrair_comando txt = Raise ValueError.
Proof.
  intros Hs H1 Hbad.
  destruct (tentar_on_match _ _ Hs)
    as (g1' & g2 & g3 & H1' & _ & _ & Hg1 & _ & Heq).
  assert (g1' = g1) as -> by congruence.
  rewrite Heq.
  pose proof (float_criterion _ (normalizado_alphabet _ Hg1)) as Hf.
  destruct (normalizado_counts _ Hg1) as [Hc Hd]. rewrite Hc, Hd, Hbad in Hf.
  now rewrite Hf.
Qed.

Lemma X5_amount_must_be_a_number_witness :
  tentar_extrair_comando "registre 1,2,3 de despesa em 01/01/2024"
  = Raise ValueError.
Proof.
  apply (X5_amount_must_be_a_number
           "registre 1,2,3 de despesa em 01/01/2024"
           (<[3%nat := "01/01/2024"]>
              (<[2%nat := "despesa"]> (<[1%nat := "1,2,3"]> ∅)))
           "1,2,3").
  - vm_compute. reflexivity.
  - vm_compute. reflexivity.
  - vm_compute. reflexivity.
Defined.

(** *** The kind keyword *)

Lemma PADRAO_kind_occurs (w rest : string) (m : groups) :
  derives PADRAO w rest ∅ m ->
  literal_found "faturamento" w = true \/ literal_found "despesa" w = true.
Proof.
  unfold PADRAO. cbn [seq derives plus star one]. intros Hd.
  break_derivation; subst.
  all: rewrite ?append_assoc.
  all: first
    [ left;
      repeat first [apply literal_found_here; assumption | apply literal_found_later];
      fail
    | right;
      repeat first [apply literal_found_here; assumption | apply literal_found_later];
      fail ].
Qed.

(** X6. The kind keyword is mandatory: a sentence in which the pattern's
    literals "faturamento" and "despesa" are both found nowhere yields
    the no-match result, whatever else it contains. *)
Theorem X6_kind_is_mandatory (txt : string) :
  literal_found "faturamento" (Py.strip txt) = false ->
  literal_found "despesa" (Py.strip txt) = false ->
  tentar_extrair_comando txt = Return None.
Proof.
  intros Hf Hd. unfold tentar_extrair_comando.
  destruct (search PADRAO (Py.strip txt)) as [m|] eqn:Hs; [|reflexivity].
  apply search_sound in Hs as (pre & w & rest & Heq & Hder).
  apply PADRAO_kind_occurs in Hder.
  assert (Hin : forall p, literal_found p w = true ->
                          literal_found p (Py.strip txt) = true).
  { intros p Hp. rewrite Heq. now apply literal_found_later, literal_found_prefix. }
  destruct Hder as [Hk | Hk]; apply Hin in Hk; congruence.
Qed.

Lemma X6_kind_is_mandatory_witness :
  tentar_extrair_comando "registre 150 de receita em 12/05/2024" = Return None.
Proof.
  apply X6_kind_is_mandatory; vm_compute; reflexivity.
Defined.

(** ** More on the store *)

Lemma registro_valido_dec (r : Registro) :
  {registro_valido r} + {~ registro_valido r}.
Proof.
  unfold registro_valido.
  destruct (String.string_dec (tipo r) "faturamento") as [Hf|Hf];
    destruct (String.string_dec (tipo r) "despesa") as [Hd|Hd];
    destruct (valor r) as [s|s| |s m e];
    first [left; split; [tauto | discriminate] | right; intros [Hk Hv]; tauto].
Qed.

Lemma inserir_invalido (r : Registro) (d : Db) :
  ~ registro_valido r -> inserir r d = (Raise IntegrityError, d).
Proof.
  intros Hinv. unfold inserir.
  destruct (is_nan (valor r)) eqn:Hn; [reflexivity|].
  destruct (check_tipo (tipo r)) eqn:Hc; [|reflexivity].
  exfalso. apply Hinv. split.
  - unfold check_tipo in Hc. apply orb_true_iff in Hc as [Hc | Hc];
      apply String.eqb_eq in Hc; auto.
  - intros Hv. rewrite Hv in Hn. discriminate.
Qed.

Lemma StronglySorted_filter {A : Type} (R : relation A) (P : A -> Prop)
    `{forall x, Decision (P x)} (l : list A) :
  StronglySorted R l -> StronglySorted R (filter P l).
Proof.
  induction 1 as [|a l Hs IH Hall]; [constructor|].
  destruct (decide (P a)) as [Hp | Hp].
  - rewrite filter_cons_True by exact Hp. constructor; [exact IH|].
    apply List.Forall_forall. intros x Hx. apply In_filter in Hx as [_ Hx].
    rewrite List.Forall_forall in Hall. now apply Hall.
  - now rewrite filter_cons_False by exact Hp.
Qed.

Lemma bem_formado_next_id (d : Db) :
  bem_formado d -> 0 <= sqlite_sequence d ->
  next_id d = sqlite_sequence d + 1.
Proof.
  intros [_ Hrows] Hseq. unfold next_id.
  assert (Hmax : max_id (transacoes d) <= sqlite_sequence d).
  { induction Hrows as [|l rows [[_ Hl] _] _ IH]; cbn [max_id foldr]; [lia|].
    unfold max_id in IH. lia. }
  lia.
Qed.

Lemma bem_formado_vazio : bem_formado db_vazio /\ 0 <= sqlite_sequence db_vazio.
Proof. repeat split; try constructor. cbn. lia. Qed.

Lemma registro_valido_linha_de (n : Z) (r : Registro) :
  registro_valido r -> registro_valido (campos (linha_de n r)).
Proof.
  intros [Hk Hv]. split; [exact Hk|]. cbn [linha_de campos valor].
  now apply armazena_nan.
Qed.

Lemma bem_formado_inserir (r : Registro) (d : Db) :
  bem_formado d /\ 0 <= sqlite_sequence d ->
  bem_formado (snd (inserir r d)) /\ 0 <= sqlite_sequence (snd (inserir r d)).
Proof.
  intros [Hwf Hseq].
  destruct (registro_valido_dec r) as [Hv | Hinv];
    [|rewrite (inserir_invalido r d Hinv); auto].
  rewrite (inserir_valido r d Hv). cbn [snd transacoes sqlite_sequence].
  pose proof (bem_formado_next_id d Hwf Hseq) as Hn.
  destruct Hwf as [Hsort Hrows]. split; [split|lia].
  - cbn [transacoes]. apply StronglySorted_app. repeat split.
    + intros x1 x2 H1 H2. apply list_elem_of_In in H1, H2.
      destruct H2 as [<- | []]. cbn [id linha_de]. now apply next_id_fresh.
    + exact Hsort.
    + repeat constructor.
  - cbn [transacoes sqlite_sequence]. apply Forall_app. split.
    + eapply Forall_impl; [exact Hrows|]. cbn. intros l [Hid Hl].
      split; [lia | exact Hl].
    + constructor; [|constructor]. split; [cbn [id linha_de]; lia|].
      now apply registro_valido_linha_de.
Qed.

Lemma bem_formado_deletar (reg_id : Z) (d : Db) :
  bem_formado d /\ 0 <= sqlite_sequence d ->
  bem_formado (snd (deletar reg_id d))
  /\ 0 <= sqlite_sequence (snd (deletar reg_id d)).
Proof.
  intros [[Hsort Hrows] Hseq]. unfold deletar, bem_formado.
  destruct (int64 reg_id); [|repeat split; assumption].
  cbn [snd transacoes sqlite_sequence]. repeat split; [| |exact Hseq].
  - now apply StronglySorted_filter.
  - apply List.Forall_forall. intros l Hl. apply In_filter in Hl as [_ Hl].
    rewrite List.Forall_forall in Hrows. now apply Hrows.
Qed.

Lemma alcancavel_bem_formado (d : Db) :
  alcancavel d -> bem_formado d /\ 0 <= sqlite_sequence d.
Proof.
  induction 1 as [|r d _ IH|i d _ IH].
  - apply bem_formado_vazio.
  - now apply bem_formado_inserir.
  - now apply bem_formado_deletar.
Qed.

Lemma bem_formado_NoDup (d : Db) :
  bem_formado d -> List.NoDup (map id (transacoes d)).
Proof.
  intros [Hsort _]. induction Hsort as [|a l Hs IH Hall]; [constructor|].
  cbn [map]. constructor; [|exact IH].
  intros Hin. apply in_map_iff in Hin as (b & Hid & Hb).
  rewrite List.Forall_forall in Hall. specialize (Hall b Hb). lia.
Qed.

(** X8. Whatever calls of [inserir] and [deletar] built the store, its
    rows stand in increasing order of identifier with no identifier twice,
    every identifier lies between 1 and the counter of [sqlite_sequence],
    and every row has one of the two kinds and an amount that is a
    number. *)
Theorem X8_store_invariant (d : Db) :
  alcancavel d ->
  bem_formado d /\ List.NoDup (map id (transacoes d)).
Proof.
  intros Hd. destruct (alcancavel_bem_formado d Hd) as [Hwf _].
  split; [exact Hwf | now apply bem_formado_NoDup].
Qed.

Lemma alcancavel_cenario : alcancavel db_cenario.
Proof. unfold db_cenario. repeat constructor. Qed.

Lemma X8_store_invariant_witness :
  bem_formado db_cenario /\ List.NoDup (map id (transacoes db_cenario)).
Proof. apply X8_store_invariant. exact alcancavel_cenario. Defined.

(** X9. Identifiers are never given twice: in a store that the module
    built, the next identifier is one more than the counter, deleting a
    row leaves it as it is, an accepted insert raises it by one and a
    refused insert leaves it; so it is above every identifier given so
    far, deleted or not. *)
Theorem X9_identifiers_never_reused (d : Db) (reg_id : Z) (r : Registro) :
  alcancavel d ->
  next_id d = sqlite_sequence d + 1
  /\ next_id (snd (deletar reg_id d)) = next_id d
  /\ (registro_valido r -> next_id (snd (inserir r d)) = next_id d + 1)
  /\ (~ registro_valido r -> next_id (snd (inserir r d)) = next_id d)
  /\ (registro_valido r ->
      next_id (snd (inserir r (snd (deletar (next_id d) (snd (inserir r d))))))
      = next_id d + 2).
Proof.
  intros Hd.
  assert (Hnext : forall d', alcancavel d' ->
                             next_id d' = sqlite_sequence d' + 1).
  { intros d' Hd'. destruct (alcancavel_bem_formado d' Hd').
    now apply bem_formado_next_id. }
  assert (Hins : forall d', alcancavel d' -> registro_valido r ->
                            next_id (snd (inserir r d')) = next_id d' + 1).
  { intros d' Hd' Hv. rewrite (Hnext _ (alc_inserir r d' Hd')).
    now rewrite (inserir_valido r d' Hv). }
  assert (Hdel : forall i d', alcancavel d' ->
                              next_id (snd (deletar i d')) = next_id d').
  { intros i d' Hd'. rewrite (Hnext _ (alc_deletar i d' Hd')), (Hnext _ Hd').
    unfold deletar. now destruct (int64 i). }
  split; [now apply Hnext|]. split; [now apply Hdel|].
  split; [now apply Hins|]. split.
  - intros Hinv. now rewrite (inserir_invalido r d Hinv).
  - intros Hv.
    rewrite Hins by (try assumption; repeat constructor; assumption).
    rewrite Hdel by (constructor; assumption).
    rewrite Hins by assumption. lia.
Qed.

Lemma X9_identifiers_never_reused_witness :
  next_id db_cenario = sqlite_sequence db_cenario + 1
  /\ next_id (snd (deletar 3 db_cenario)) = next_id db_cenario.
Proof.
  destruct (X9_identifiers_never_reused db_cenario 3 registro_exemplo
              alcancavel_cenario) as (H1 & H2 & _).
  split; [exact H1 | exact H2].
Defined.

(** X10. Deleting twice is deleting once: the second [deletar] of the same
    identifier finds no row and changes nothing; it answers [false] when
    the identifier fits 64 bits and raises [OverflowError], as the first
    did, when it does not. *)
Theorem X10_deletar_twice (reg_id : Z) (d : Db) :
  deletar reg_id (snd (deletar reg_id d))
  = (if int64 reg_id then Return false else Raise OverflowError,
     snd (deletar reg_id d)).
Proof.
  unfold deletar. destruct (int64 reg_id); [|reflexivity].
  cbn [snd transacoes sqlite_sequence].
  rewrite (filter_none (fun l => id l = reg_id)).
  - rewrite (filter_all (fun l => id l <> reg_id)
               (filter (fun l => id l <> reg_id) (transacoes d))).
    + reflexivity.
    + intros l Hl. now apply In_filter in Hl as [Hne _].
  - intros l Hl Heq. now apply In_filter in Hl as [Hne _].
Qed.

Lemma leb_range_contradiction (p x q : string) :
  String.leb p x = true -> String.leb x q = true -> String.ltb q p = false.
Proof.
  unfold String.leb, String.ltb. intros Hpx Hxq.
  destruct (String.compare q p) eqn:Hqp; try reflexivity. exfalso.
  destruct (String.compare p x) eqn:Hcpx; [| |discriminate].
  - apply String.compare_eq_iff in Hcpx. subst x.
    rewrite String.compare_antisym, Hqp in Hxq. discriminate.
  - pose proof (compare_lt_trans _ _ _ Hqp Hcpx) as Hqx.
    rewrite String.compare_antisym, Hqx in Hxq. discriminate.
Qed.

Lemma NoDup_map_eq {A B : Type} (f : A -> B) (l : list A) (a b : A) :
  List.NoDup (map f l) -> In a l -> In b l -> f a = f b -> a = b.
Proof.
  induction l as [|x l IH]; intros Hnd Ha Hb Hf; [destruct Ha|].
  cbn [map] in Hnd. apply List.NoDup_cons_iff in Hnd as [Hx Hnd].
  destruct Ha as [-> | Ha], Hb as [-> | Hb]; auto.
  - exfalso. apply Hx. rewrite Hf. now apply in_map.
  - exfalso. apply Hx. rewrite <- Hf. now apply in_map.
Qed.

Lemma ou_zero_number (v : option spec_float) :
  v <> Some S754_nan ->
  ou_zero v <> S754_nan /\ ou_zero v <> S754_zero true.
Proof.
  destruct v as [[s|s| |s m e]|]; cbn [ou_zero]; intros Hv; split;
    try discriminate; congruence.
Qed.

Section StoreExtras.
Context `{Engine}.

Lemma no_intervalo_inverted (p q : string) (l : Linha) :
  Py.truthy p = true -> Py.truthy q = true -> String.ltb q p = true ->
  no_intervalo (Some p) (Some q) l = false.
Proof.
  intros Hp Hq Hlt. unfold no_intervalo, limite. rewrite Hp, Hq.
  destruct (dia l) as [x|]; [|reflexivity].
  destruct (String.leb p x) eqn:Hpx; [|reflexivity].
  destruct (String.leb x q) eqn:Hxq; [|reflexivity].
  rewrite (leb_range_contradiction _ _ _ Hpx Hxq) in Hlt. discriminate.
Qed.

(** X11. A range whose lower bound is after its upper bound holds no row:
    the listing and the revenue table are empty and the mapping of totals
    has no key. *)
Theorem X11_inverted_range (p q : string) (d : Db) :
  Py.truthy p = true -> Py.truthy q = true -> String.ltb q p = true ->
  listar_transacoes (Some p) (Some q) d = []
  /\ totais (Some p) (Some q) d = ∅
  /\ faturamento_por_descricao (Some p) (Some q) d = [].
Proof.
  intros Hp Hq Hlt.
  assert (Hnone : filter (fun l => onde (condicoes (Some p) (Some q)) l = true)
                         (transacoes d) = []).
  { rewrite filter_onde. apply filter_none. intros l _.
    now rewrite (no_intervalo_inverted p q l Hp Hq Hlt). }
  assert (Hnone' :
    filter (fun l => onde_faturamento (condicoes (Some p) (Some q)) l = true)
           (transacoes d) = []).
  { apply filter_none. intros l _ Hl.
    apply onde_faturamento_spec in Hl as [_ Hl].
    now rewrite (no_intervalo_inverted p q l Hp Hq Hlt) in Hl. }
  split; [|split].
  - unfold listar_transacoes, listar_consulta, listar_ordenadas.
    now rewrite Hnone.
  - apply map_eq. intros k. rewrite totais_lookup, lookup_empty.
    rewrite (filter_none (fun l => no_intervalo (Some p) (Some q) l = true));
      [now rewrite visita_nil|].
    intros l _. now rewrite (no_intervalo_inverted p q l Hp Hq Hlt).
  - unfold faturamento_por_descricao. now rewrite Hnone', visita_nil.
Qed.

(** X12. A row whose date text SQLite does not read as a date is listed
    when there is no date filter and is left out as soon as there is one,
    in a store that the module built. *)
Theorem X12_undated_rows (data_inicio data_fim : option string) (d : Db)
    (l : Linha) :
  alcancavel d -> In l (transacoes d) -> dia l = None ->
  In (id l) (map q_id (listar_transacoes None None d))
  /\ (limite data_inicio <> None \/ limite data_fim <> None ->
      ~ In (id l) (map q_id (listar_transacoes data_inicio data_fim d))).
Proof.
  intros Hd Hl Hdia. split.
  - rewrite listar_ids. apply in_map.
    eapply Permutation_in; [symmetry; apply listar_sem_filtro|exact Hl].
  - intros Hbound Hin. rewrite listar_ids in Hin.
    apply in_map_iff in Hin as (l' & Hid & Hl').
    eapply Permutation_in in Hl'; [|apply listar_ordenadas_perm].
    apply In_filter in Hl' as [Hrange Hl'].
    destruct (alcancavel_bem_formado d Hd) as [Hwf _].
    assert (l' = l) as ->
      by (eapply NoDup_map_eq; eauto using bem_formado_NoDup).
    unfold no_intervalo in Hrange. rewrite Hdia in Hrange.
    destruct (limite data_inicio), (limite data_fim); cbn in Hrange;
      try discriminate. destruct Hbound; congruence.
Qed.

(** X13. The revenue table is empty exactly when the mapping of totals has
    no entry for "faturamento", the range being the same. *)
Theorem X13_revenue_table_and_totals (data_inicio data_fim : option string)
    (d : Db) :
  faturamento_por_descricao data_inicio data_fim d = [] <->
  totais data_inicio data_fim d !! "faturamento" = None.
Proof.
  rewrite totais_lookup.
  set (rows := filter (fun l => no_intervalo data_inicio data_fim l = true)
                      (transacoes d)).
  assert (Hrows :
    filter (fun l => onde_faturamento (condicoes data_inicio data_fim) l = true)
           (transacoes d)
    = filter (fun l => tipo (campos l) = "faturamento") rows).
  { subst rows. induction (transacoes d) as [|a l IH]; [reflexivity|].
    pose proof (onde_faturamento_spec data_inicio data_fim a) as Ha.
    destruct (decide (no_intervalo data_inicio data_fim a = true)) as [Hr|Hr];
      destruct (decide (tipo (campos a) = "faturamento")) as [Ht|Ht].
    - rewrite (filter_cons_True (fun l => onde_faturamento _ l = true))
        by (apply Ha; auto).
      rewrite (filter_cons_True (fun l => no_intervalo _ _ l = true)) by exact Hr.
      rewrite (filter_cons_True (fun l => tipo (campos l) = _)) by exact Ht.
      now rewrite IH.
    - rewrite (filter_cons_False (fun l => onde_faturamento _ l = true))
        by (intros Hc; apply Ha in Hc; tauto).
      rewrite (filter_cons_True (fun l => no_intervalo _ _ l = true)) by exact Hr.
      now rewrite (filter_cons_False (fun l => tipo (campos l) = _)) by exact Ht.
    - rewrite (filter_cons_False (fun l => onde_faturamento _ l = true))
        by (intros Hc; apply Ha in Hc; tauto).
      now rewrite (filter_cons_False (fun l => no_intervalo _ _ l = true))
        by exact Hr.
    - rewrite (filter_cons_False (fun l => onde_faturamento _ l = true))
        by (intros Hc; apply Ha in Hc; tauto).
      now rewrite (filter_cons_False (fun l => no_intervalo _ _ l = true))
        by exact Hr. }
  unfold faturamento_por_descricao. rewrite Hrows.
  pose proof (visita_filter_nil ConsultaTotais
                (fun l => tipo (campos l) = "faturamento") rows) as Htot.
  pose proof (visita_nil_iff ConsultaFaturamento
                (filter (fun l => tipo (campos l) = "faturamento") rows))
    as Hfat.
  destruct (visita ConsultaFaturamento
              (filter (fun l => tipo (campos l) = "faturamento") rows))
    as [|a g] eqn:Hg.
  - rewrite (proj2 Htot (proj1 Hfat eq_refl)). split; reflexivity.
  - destruct (filter (fun l => tipo (campos l) = "faturamento")
                (visita ConsultaTotais rows)) as [|a' g'] eqn:Hg'.
    { pose proof (proj2 Hfat (proj1 Htot eq_refl)). discriminate. }
    split; [|discriminate]. intros Hnil. exfalso.
    assert (Hperm := merge_sort_Permutation ordem_total
      (map (fun '(k, g0) => (k, sql_sum (map (fun l => valor (campos l)) g0)))
           (group_by (fun l => descricao (campos l)) (a :: g)))).
    rewrite Hnil in Hperm. apply Permutation_nil in Hperm.
    apply (f_equal (map fst)) in Hperm.
    rewrite map_map in Hperm. cbn [map] in Hperm.
    assert (Hk : In (descricao (campos a))
                    (map (fun x : option string * list Linha =>
                            fst (let '(k, g0) := x in
                                 (k, sql_sum (map (fun l => valor (campos l)) g0))))
                         (group_by (fun l => descricao (campos l)) (a :: g)))).
    { apply in_map_iff.
      exists (descricao (campos a),
              filter (fun l => descricao (campos l) = descricao (campos a))
                     (a :: g)).
      split; [reflexivity|]. apply group_by_In. split; [now left | reflexivity]. }
    rewrite Hperm in Hk. destruct Hk.
Qed.

(** X14. In a store that the module built, the mapping of [totais] has no
    key other than "faturamento" and "despesa", and no value that is not
    a number or is the negative zero. *)
Theorem X14_totais_entries (data_inicio data_fim : option string) (d : Db)
    (k : string) (v : spec_float) :
  alcancavel d ->
  totais data_inicio data_fim d !! k = Some v ->
  (k = "faturamento" \/ k = "despesa")
  /\ v <> S754_nan /\ v <> S754_zero true.
Proof.
  intros Hd. rewrite totais_lookup.
  destruct (filter _ (visita ConsultaTotais (filter _ (transacoes d))))
    as [|a g] eqn:Hg; [discriminate|].
  intros Hv. injection Hv as <-. split.
  - assert (Ha : In a (a :: g)) by now left.
    rewrite <- Hg in Ha. apply In_filter in Ha as [<- Ha].
    eapply Permutation_in in Ha; [|apply visita_perm].
    apply In_filter in Ha as [_ Ha].
    destruct (alcancavel_bem_formado d Hd) as [[_ Hrows] _].
    rewrite List.Forall_forall in Hrows.
    now destruct (Hrows a Ha) as [_ [Hk _]].
  - apply ou_zero_number.
    exact (sql_sum_not_nan (map (fun l => valor (campos l)) (a :: g))).
Qed.

(** X15. Without a date filter the listing shows every row of the table:
    as many rows as the table has, with the same identifiers, and each
    identifier once in a store that the module built. *)
Theorem X15_unfiltered_listing (d : Db) :
  length (listar_transacoes None None d) = length (transacoes d)
  /\ map q_id (listar_transacoes None None d) ≡ₚ map id (transacoes d)
  /\ (alcancavel d ->
      List.NoDup (map q_id (listar_transacoes None None d))).
Proof.
  assert (Hperm : map q_id (listar_transacoes None None d)
                  ≡ₚ map id (transacoes d)).
  { rewrite listar_ids. apply Permutation_map, listar_sem_filtro. }
  split; [|split; [exact Hperm|]].
  - rewrite <- (length_map q_id), <- (length_map id).
    now apply Permutation_length.
  - intros Hd. eapply Permutation_NoDup; [symmetry; exact Hperm|].
    apply bem_formado_NoDup. now destruct (alcancavel_bem_formado d Hd).
Qed.

End StoreExtras.

(** ** The further properties on the scenario *)

Lemma X11_inverted_range_witness :
  listar_transacoes (Some "2024-01-02") (Some "2024-01-01") db_cenario = []
  /\ totais (Some "2024-01-02") (Some "2024-01-01") db_cenario = ∅
  /\ faturamento_por_descricao (Some "2024-01-02") (Some "2024-01-01")
       db_cenario = [].
Proof. apply X11_inverted_range; reflexivity. Defined.

Lemma X12_undated_rows_witness :
  In 4 (map q_id (listar_transacoes None None db_sem_data))
  /\ ~ In 4 (map q_id (listar_transacoes (Some "2024-01-01") None db_sem_data)).
Proof.
  destruct (X12_undated_rows (Some "2024-01-01") None db_sem_data
              {| id := 4;
                 campos := {| data := "ontem"; tipo := "despesa";
                              valor := Py.float_of_int 30;
                              descricao := Some "B" |} |})
    as [Hall Hnone].
  - unfold db_sem_data. constructor. exact alcancavel_cenario.
  - vm_compute. auto.
  - reflexivity.
  - split; [exact Hall|]. apply Hnone. left. discriminate.
Defined.

Lemma X14_totais_entries_witness :
  ("despesa" = "faturamento" \/ "despesa" = "despesa")
  /\ Py.float_of_int 60 <> S754_nan /\ Py.float_of_int 60 <> S754_zero true.
Proof.
  apply (X14_totais_entries None None db_sem_data).
  - unfold db_sem_data. constructor. exact alcancavel_cenario.
  - vm_compute. reflexivity.
Defined.

(** ** The description clause, and totals after an insert *)

Lemma PADRAO_descricao_occurs (w rest : string) (m : groups) :
  derives PADRAO w rest ∅ m ->
  m !! 4%nat = None \/ literal_found "descricao" w = true.
Proof.
  unfold PADRAO. cbn [seq derives plus star one]. intros Hd.
  break_derivation; subst.
  all: rewrite ?append_assoc.
  all: first
    [ left; by simplify_map_eq
    | right;
      repeat first [apply literal_found_here; assumption | apply literal_found_later];
      fail ].
Qed.

(** X16. A record has a description only if the sentence says so: when
    the pattern's literal "descricao" is found nowhere in the sentence,
    the record that is returned has none. *)
Theorem X16_description_needs_its_clause (txt : string) (r : Registro) :
  literal_found "descricao" (Py.strip txt) = false ->
  tentar_extrair_comando txt = Return (Some r) ->
  descricao r = None.
Proof.
  intros Hocc Hr.
  destruct (search PADRAO (Py.strip txt)) as [m|] eqn:Hs.
  - destruct (tentar_on_match _ _ Hs)
      as (g1 & g2 & g3 & _ & _ & _ & _ & _ & Heq).
    rewrite Heq in Hr.
    apply search_sound in Hs as (pre & w & rest & Htxt & Hder).
    apply PADRAO_descricao_occurs in Hder as [H4 | Hw].
    + destruct (Py.float (normalizado g1)); cbn [bind] in Hr; [|discriminate].
      destruct (slot_dmy g3) as [[d mo] y].
      destruct (Py.valid_date y mo d); [|discriminate].
      injection Hr as <-. cbn [descricao]. now rewrite H4.
    + rewrite Htxt in Hocc.
      rewrite (literal_found_later _ pre _ (literal_found_prefix _ _ rest Hw)) in Hocc.
      discriminate.
  - unfold tentar_extrair_comando in Hr. rewrite Hs in Hr. discriminate.
Qed.

Lemma X16_description_needs_its_clause_witness :
  descricao {| data := "2024-05-12"; tipo := "faturamento"; valor := f_150;
               descricao := None |} = None.
Proof.
  apply (X16_description_needs_its_clause
           "registre 150 de faturamento em 12/05/2024.").
  - vm_compute. reflexivity.
  - vm_compute. reflexivity.
Defined.

Section TotalsAfterInsert.
Context `{Engine}.


End TotalsAfterInsert.

